(** * Poll-and-publish cycle of [data_collection/home_manager.py]

    A shallow embedding of [HomeManager]: the Z-Wave network object, the
    InfluxDB client and the [threading.Timer] are external collaborators, so
    every call into them is recorded as an [Event] of a trace, and the
    answers they give (wall-clock strings, whether a write raises) are
    oracles of the enclosing section. Python exceptions are a [Raise] result;
    the effects performed before a raise stay in the [World].

    What the vendor objects do is taken from the way the program uses them:
    [network.nodes] and [node.values] are dictionaries, read in the order
    they enumerate; [isinstance(node, ZWaveNodeSensor)] and
    [node.get_sensors()] are answers each node carries; [network.start()]
    sets the started flag, and [network.stop()] clears it and empties the
    node table. Nodes the library discovers or drops on its own between two
    callbacks are not part of a run. [__init__] only builds these objects.
    Each callback is taken as one step: interleavings of a callback with a
    running cycle are not modelled. *)

From Stdlib Require Import ZArith QArith.
From stdpp Require Import base option list gmap strings.

Close Scope Q_scope.
Open Scope Z_scope.

(** ** Python values *)

(** Numbers held by [val.data]: Z-Wave readings are ints (bytes, shorts,
    32-bit ints) or decimals. A Python float is represented by the rational
    it denotes; no float arithmetic is performed by the program. *)
Inductive PyNum :=
| NInt (z : Z)
| NFloat (q : Q).

(** [float(x)] on a number; an int of at most 32 bits converts exactly. *)
Definition float (x : PyNum) : Q :=
  match x with
  | NInt z => inject_Z z
  | NFloat q => q
  end.

(** [str(s)] on a string. *)
Definition str (s : string) : string := s.

(** Values stored in the JSON dictionaries handed to InfluxDB. *)
Inductive PyVal :=
| PyInt (z : Z)
| PyFloat (q : Q)
| PyStr (s : string).

(** ** Insertion-ordered dictionaries keyed by integers *)

Definition dict (V : Type) : Type := list (Z * V).

Fixpoint dict_get {V} (d : dict V) (k : Z) : option V :=
  match d with
  | [] => None
  | (k', v) :: d' => if decide (k' = k) then Some v else dict_get d' k
  end.

Fixpoint dict_set {V} (d : dict V) (k : Z) (v : V) : dict V :=
  match d with
  | [] => []
  | (k', v') :: d' =>
      if decide (k' = k) then (k', v) :: d' else (k', v') :: dict_set d' k v
  end.

Definition keys {V} (d : dict V) : list Z := d.*1.

(** The representation invariant of a dictionary: keys are unique. *)
Definition dict_wf {V} (d : dict V) : Prop := NoDup (keys d).

(** ** The device network as the vendor library exposes it *)

Record ZWaveValue := {
  id_on_network : string;
  value_id : Z;
  label : string;
  data : PyNum;
  units : string
}.

Record ZWaveNode := {
  isinstance_ZWaveNodeSensor : bool; (* isinstance(node, ZWaveNodeSensor) *)
  get_sensors : list Z;  (* keys of the dict node.get_sensors() returns *)
  home_id : Z;
  node_id : Z;
  manufacturer_id : string;
  product_id : string;
  values : dict ZWaveValue
}.

Record ZWaveController := {
  ozw_library_version : string;
  python_library_version : string;
  library_description : string;
  controller_node_id : Z;
  controller_node_version : Z
}.

Record ZWaveNetwork := {
  controller : ZWaveController;
  home_id_str : string;
  nodes_count : Z;
  is_started : bool;  (* network.start() has run and network.stop() has not *)
  nodes : dict ZWaveNode
}.

(** Python object identity, compared by [is]. *)
Definition ref := nat.

(** ** Module constants *)

Definition DATABASE : string := "sterling_ranch".
Definition TIME_INTERVAL : Z := 15.
Definition CONFIG_NUMBER : Z := 72057594098484979.

Definition labels_to_be_polled : gset string :=
  {[ "Luminance"; "Relative Humidity"; "Temperature"; "Ultraviolet";
     "Alarm Level"; "Burglar" ]}.

(** ** Points sent to InfluxDB *)

Record Point := {
  measurement : string;
  tags : gmap string PyVal;
  time : string;
  fields : gmap string PyVal
}.

(** The dictionary literals of [value_refresh_to_influxdb_json], with the
    clock string passed in. *)
Definition point_tags (node : ZWaveNode) (val : ZWaveValue) : gmap string PyVal :=
  {[ "id_on_network" := PyStr (id_on_network val);
     "home_id" := PyInt (home_id node);
     "node_id" := PyInt (node_id node);
     "value_id" := PyInt (value_id val);
     "manufacturer_id" := PyStr (manufacturer_id node);
     "product_id" := PyStr (product_id node);
     "label" := PyStr (str (label val)) ]}.

Definition point_fields (val : ZWaveValue) : gmap string PyVal :=
  {[ "data" := PyFloat (float (data val));
     "units" := PyStr (str (units val));
     "type" := PyStr "none";
     "type_val" := PyInt 0 ]}.

Definition value_refresh_point (node : ZWaveNode) (val : ZWaveValue)
    (now : string) : Point :=
  {| measurement := "value_refresh";
     tags := point_tags node val;
     time := now;
     fields := point_fields val |}.

(** ** Observable events and the world *)

Inductive LogArg :=
| AStr (s : string)
| AInt (z : Z)
| AValue (v : ZWaveValue).

Inductive Event :=
| EvLog (fmt : string) (args : list LogArg)   (* logger.info(fmt, *args) *)
| EvNetworkStart                              (* network.start() *)
| EvNetworkStop                               (* network.stop() *)
| EvSetData (node_key val_key : Z) (x : PyNum)
    (* network.nodes[node_key].values[val_key].data = x *)
| EvTimer (interval : Z)   (* Timer(interval, self.start_polling).start() *)
| EvWritePoints (points : list Point).        (* client.write_points(points) *)

Record World := {
  self_network : ref;      (* identity of the object held in self.network *)
  network : ZWaveNetwork;  (* current state of that object *)
  timers : nat;            (* timers armed and not yet fired *)
  clock_reads : nat;       (* calls of time.asctime so far *)
  write_calls : nat;       (* calls of client.write_points so far *)
  trace : list Event       (* everything done so far, oldest first *)
}.

Inductive exn :=
| KeyError (key : Z)
| InfluxDBClientError.

Inductive result (A : Type) :=
| Ok (a : A)
| Raise (e : exn).
Arguments Ok {A} a.
Arguments Raise {A} e.

(** A computation runs on a world and returns normally or raises; in both
    cases the world it leaves behind is kept. *)
Definition M (A : Type) : Type := World -> result A * World.

Definition ret {A} (a : A) : M A := fun w => (Ok a, w).

Definition bind {A B} (m : M A) (k : A -> M B) : M B :=
  fun w =>
    match m w with
    | (Ok a, w') => k a w'
    | (Raise e, w') => (Raise e, w')
    end.

Definition raise {A} (e : exn) : M A := fun w => (Raise e, w).

Declare Scope py_scope.
Delimit Scope py_scope with py.
Notation "x <- m ;; k" := (bind m (fun x => k))
  (at level 100, m at next level, k at level 200, right associativity)
  : py_scope.
Notation "m ;; k" := (bind m (fun _ => k))
  (at level 100, k at level 200, right associativity) : py_scope.
Open Scope py_scope.

Fixpoint for_each {A} (l : list A) (body : A -> M unit) : M unit :=
  match l with
  | [] => ret tt
  | x :: l' => body x ;; for_each l' body
  end.

Definition emit (e : Event) (w : World) : World :=
  {| self_network := self_network w; network := network w;
     timers := timers w; clock_reads := clock_reads w;
     write_calls := write_calls w; trace := trace w ++ [e] |}.

Definition set_network (n : ZWaveNetwork) (w : World) : World :=
  {| self_network := self_network w; network := n;
     timers := timers w; clock_reads := clock_reads w;
     write_calls := write_calls w; trace := trace w |}.

Definition logger_info (fmt : string) (args : list LogArg) : M unit :=
  fun w => (Ok tt, emit (EvLog fmt args) w).

(** [d[k]]: raises [KeyError] on a missing key. *)
Definition getitem {V} (d : dict V) (k : Z) : M V :=
  match dict_get d k with
  | Some v => ret v
  | None => raise (KeyError k)
  end.

(** [self.network.nodes], read from the live object. *)
Definition network_nodes : M (dict ZWaveNode) :=
  fun w => (Ok (nodes (network w)), w).

(** [Timer(interval, self.start_polling).start()]. *)
Definition Timer_start (interval : Z) : M unit :=
  fun w =>
    (Ok tt,
     emit (EvTimer interval)
       {| self_network := self_network w; network := network w;
          timers := S (timers w); clock_reads := clock_reads w;
          write_calls := write_calls w; trace := trace w |}).

Definition with_data (val : ZWaveValue) (x : PyNum) : ZWaveValue :=
  {| id_on_network := id_on_network val; value_id := value_id val;
     label := label val; data := x; units := units val |}.

Definition with_values (node : ZWaveNode) (vs : dict ZWaveValue) : ZWaveNode :=
  {| isinstance_ZWaveNodeSensor := isinstance_ZWaveNodeSensor node;
     get_sensors := get_sensors node; home_id := home_id node;
     node_id := node_id node; manufacturer_id := manufacturer_id node;
     product_id := product_id node; values := vs |}.

Definition with_nodes (n : ZWaveNetwork) (ns : dict ZWaveNode) : ZWaveNetwork :=
  {| controller := controller n; home_id_str := home_id_str n;
     nodes_count := nodes_count n; is_started := is_started n; nodes := ns |}.

Definition with_started (n : ZWaveNetwork) (b : bool) : ZWaveNetwork :=
  {| controller := controller n; home_id_str := home_id_str n;
     nodes_count := nodes_count n; is_started := b; nodes := nodes n |}.

(** [self.network.nodes[node_key].values[val_key].data = x]: both
    subscripts are evaluated first (either may raise [KeyError]), then the
    attribute of the value object is assigned, which is also the write path
    that pushes the configuration value to the device. *)
Definition set_value_data (node_key val_key : Z) (x : PyNum) : M unit :=
  ns <- network_nodes ;;
  node <- getitem ns node_key ;;
  val <- getitem (values node) val_key ;;
  fun w =>
    let vs' := dict_set (values node) val_key (with_data val x) in
    let ns' := dict_set ns node_key (with_values node vs') in
    (Ok tt, emit (EvSetData node_key val_key x)
              (set_network (with_nodes (network w) ns') w)).

Definition network_start : M unit :=
  fun w => (Ok tt, emit EvNetworkStart
                     (set_network (with_started (network w) true) w)).

(** [network.stop()]: the library stops the network and empties
    [network.nodes]. *)
Definition network_stop : M unit :=
  fun w => (Ok tt, emit EvNetworkStop
                     (set_network
                        (with_nodes (with_started (network w) false) []) w)).

(** ** The program *)

Definition ozw_debug : M unit :=
  let rule := "------------------------------------------------------------" in
  logger_info rule [] ;;
  net <- (fun w => (Ok (network w), w)) ;;
  logger_info "Use openzwave library : {}" [AStr (ozw_library_version (controller net))] ;;
  logger_info "Use python library : {}" [AStr (python_library_version (controller net))] ;;
  logger_info "Use ZWave library : {}" [AStr (library_description (controller net))] ;;
  logger_info "Network home id : {}" [AStr (home_id_str net)] ;;
  logger_info "Controller node id : {}" [AInt (controller_node_id (controller net))] ;;
  logger_info "Controller node version : {}" [AInt (controller_node_version (controller net))] ;;
  logger_info "Nodes in network : {}" [AInt (nodes_count net)] ;;
  logger_info rule [].

(** [isinstance(node, ZWaveNodeSensor) and not len(node.get_sensors()) is 0];
    [not] binds weaker than [is], and [len(..) is 0] holds exactly when the
    length is zero. *)
Definition is_sensor (node : ZWaveNode) : bool :=
  isinstance_ZWaveNodeSensor node
  && negb (bool_decide (length (get_sensors node) = 0%nat)).

Section Publisher.

(** The string [time.asctime(time.localtime())] returns at its k-th call. *)
Variable asctime : nat -> string.
(** Whether the k-th call of [client.write_points] returns; otherwise it
    raises. *)
Variable write_points_ok : nat -> bool.

Definition value_refresh_to_influxdb_json (node : ZWaveNode)
    (val : ZWaveValue) : M (list Point) :=
  fun w =>
    (Ok [value_refresh_point node val (asctime (clock_reads w))],
     {| self_network := self_network w; network := network w;
        timers := timers w; clock_reads := S (clock_reads w);
        write_calls := write_calls w; trace := trace w |}).

Definition write_points (points : list Point) : M unit :=
  fun w =>
    let w' :=
      emit (EvWritePoints points)
        {| self_network := self_network w; network := network w;
           timers := timers w; clock_reads := clock_reads w;
           write_calls := S (write_calls w); trace := trace w |} in
    if write_points_ok (write_calls w) then (Ok tt, w')
    else (Raise InfluxDBClientError, w').

Definition start : M unit :=
  logger_info "Starting network..." [] ;;
  network_start.

Definition stop : M unit :=
  logger_info "Stopping network..." [] ;;
  set_value_data 3 CONFIG_NUMBER (NInt 3600) ;;
  network_stop ;;
  logger_info "Stopped" [].

Definition stop_signal : M unit := stop.

Definition start_polling : M unit :=
  Timer_start TIME_INTERVAL ;;
  items <- network_nodes ;;
  for_each items (fun '(node_id, node) =>
    if is_sensor node then
      ns <- network_nodes ;;
      n <- getitem ns node_id ;;
      for_each (keys (values n)) (fun val_id =>
        ns <- network_nodes ;;
        n <- getitem ns node_id ;;
        val <- getitem (values n) val_id ;;
        if decide (label val ∈ labels_to_be_polled) then
          logger_info "Received value refresh %s: %s"
            [AStr (id_on_network val); AValue val] ;;
          points <- value_refresh_to_influxdb_json node val ;;
          write_points points
        else ret tt)
    else ret tt).

(** [self.network is not network] compares object identities. *)
Definition signal_network_ready (network : ref) : M unit :=
  me <- (fun w => (Ok (self_network w), w)) ;;
  if decide (me ≠ network) then ret tt
  else
    ozw_debug ;;
    logger_info "Network is ready!" [] ;;
    set_value_data 3 CONFIG_NUMBER (NInt 15) ;;
    start_polling.

(** ** The callbacks as the process receives them

    [connect_signals] registers [signal_network_ready] with the
    dispatcher and [stop_signal] for SIGINT; every armed timer later calls
    [start_polling] on a thread of its own. Each callback runs to its end
    or to its raise; a raise ends that callback only. *)
Inductive Input :=
| CallStart                      (* hm.start() *)
| Sigint                         (* SIGINT delivered: stop_signal *)
| NetworkReady (network : ref)   (* SIGNAL_NETWORK_READY delivered *)
| TimerFires.                    (* an armed timer expires *)

Definition fire_timer (w : World) : World :=
  {| self_network := self_network w; network := network w;
     timers := pred (timers w); clock_reads := clock_reads w;
     write_calls := write_calls w; trace := trace w |}.

Definition handle (i : Input) (w : World) : result unit * World :=
  match i with
  | CallStart => start w
  | Sigint => stop_signal w
  | NetworkReady r => signal_network_ready r w
  | TimerFires =>
      match timers w with
      | O => (Ok tt, w)
      | S _ => start_polling (fire_timer w)
      end
  end.

Fixpoint run (inputs : list Input) (w : World) : World :=
  match inputs with
  | [] => w
  | i :: inputs' => run inputs' (handle i w).2
  end.

End Publisher.

(** ** What a computation adds to the trace *)

Definition new_events {A} (m : M A) (w : World) : list Event :=
  drop (length (trace w)) (trace (m w).2).

(** The argument of every [write_points] call among some events. *)
Definition writes_of (evs : list Event) : list (list Point) :=
  omap (fun e => match e with EvWritePoints ps => Some ps | _ => None end) evs.

Definition is_log (e : Event) : bool :=
  match e with EvLog _ _ => true | _ => false end.

(** ** The readings a cycle is to publish

    Every value of every device, in the order the dictionaries enumerate
    them, such that the device is classified as a sensor and the label of
    the value is one of [labels_to_be_polled]. *)

Definition polled_values (vs : dict ZWaveValue) : list ZWaveValue :=
  filter (fun val => label val ∈ labels_to_be_polled) vs.*2.

Definition node_readings (node : ZWaveNode) : list (ZWaveNode * ZWaveValue) :=
  if is_sensor node then (fun val => (node, val)) <$> polled_values (values node)
  else [].

Definition whitelisted_readings (ns : dict ZWaveNode)
    : list (ZWaveNode * ZWaveValue) :=
  ns ≫= (fun kn => node_readings kn.2).

(** Every dictionary the network exposes has unique keys, as every Python
    dictionary has. *)
Definition network_wf (net : ZWaveNetwork) : Prop :=
  dict_wf (nodes net) ∧ Forall (fun kn => dict_wf (values kn.2)) (nodes net).

(** A point without its timestamp. *)
Definition untimed (p : Point) : string * gmap string PyVal * gmap string PyVal :=
  (measurement p, tags p, fields p).

Section Bodies.

Variable asctime : nat -> string.
Variable write_points_ok : nat -> bool.

(** The three statements guarded by [if val.label in labels_to_be_polled]. *)
Definition publish (r : ZWaveNode * ZWaveValue) : M unit :=
  logger_info "Received value refresh %s: %s"
    [AStr (id_on_network r.2); AValue r.2] ;;
  points <- value_refresh_to_influxdb_json asctime r.1 r.2 ;;
  write_points write_points_ok points.

(** The body of the inner loop of [start_polling]. *)
Definition poll_value (node_id : Z) (node : ZWaveNode) (val_id : Z) : M unit :=
  ns <- network_nodes ;;
  n <- getitem ns node_id ;;
  val <- getitem (values n) val_id ;;
  if decide (label val ∈ labels_to_be_polled) then publish (node, val)
  else ret tt.

(** The body of the outer loop of [start_polling]. *)
Definition poll_node : Z * ZWaveNode -> M unit :=
  fun '(node_id, node) =>
    if is_sensor node then
      ns <- network_nodes ;;
      n <- getitem ns node_id ;;
      for_each (keys (values n)) (poll_value node_id node)
    else ret tt.

(** What publishing a list of readings does, as pure functions of the
    number [c] of clock reads and [k] of write calls made before: the
    events, the number of write calls issued, and the outcome. Publishing
    ends at the first write that raises. *)
Fixpoint publish_events (sel : list (ZWaveNode * ZWaveValue)) (c k : nat)
    : list Event :=
  match sel with
  | [] => []
  | (node, val) :: sel' =>
      EvLog "Received value refresh %s: %s" [AStr (id_on_network val); AValue val]
      :: EvWritePoints [value_refresh_point node val (asctime c)]
      :: (if write_points_ok k then publish_events sel' (S c) (S k) else [])
  end.

Fixpoint publish_count (sel : list (ZWaveNode * ZWaveValue)) (k : nat) : nat :=
  match sel with
  | [] => O
  | _ :: sel' => if write_points_ok k then S (publish_count sel' (S k)) else 1%nat
  end.

Fixpoint publish_result (sel : list (ZWaveNode * ZWaveValue)) (k : nat)
    : result unit :=
  match sel with
  | [] => Ok tt
  | _ :: sel' =>
      if write_points_ok k then publish_result sel' (S k)
      else Raise InfluxDBClientError
  end.

(** The arguments of the write calls that publish [sel], the first one
    built at clock read [c]. *)
Fixpoint sent (c : nat) (sel : list (ZWaveNode * ZWaveValue))
    : list (list Point) :=
  match sel with
  | [] => []
  | (node, val) :: sel' =>
      [value_refresh_point node val (asctime c)] :: sent (S c) sel'
  end.

(** [n] consecutive timer expiries, each running one cycle; the points
    written by each cycle. *)
Fixpoint cycles (n : nat) (w : World) : list (list Point) :=
  match n with
  | O => []
  | S n' =>
      mjoin (writes_of (new_events (start_polling asctime write_points_ok) w))
      :: cycles n' (start_polling asctime write_points_ok w).2
  end.

End Bodies.

(** The world after [n] more records were built and sent and [evs] were
    appended to the trace. *)
Definition advance (n : nat) (evs : list Event) (w : World) : World :=
  {| self_network := self_network w; network := network w;
     timers := timers w; clock_reads := (clock_reads w + n)%nat;
     write_calls := (write_calls w + n)%nat; trace := trace w ++ evs |}.

Definition arm (w : World) : World :=
  {| self_network := self_network w; network := network w;
     timers := S (timers w); clock_reads := clock_reads w;
     write_calls := write_calls w; trace := trace w ++ [EvTimer TIME_INTERVAL] |}.

(** The world with [evs] appended to its trace. *)
Definition append (evs : list Event) (w : World) : World :=
  {| self_network := self_network w; network := network w;
     timers := timers w; clock_reads := clock_reads w;
     write_calls := write_calls w; trace := trace w ++ evs |}.

(** The lines of [ozw_debug]. *)
Definition ozw_debug_logs (net : ZWaveNetwork) : list Event :=
  let rule := "------------------------------------------------------------" in
  [ EvLog rule [];
    EvLog "Use openzwave library : {}" [AStr (ozw_library_version (controller net))];
    EvLog "Use python library : {}" [AStr (python_library_version (controller net))];
    EvLog "Use ZWave library : {}" [AStr (library_description (controller net))];
    EvLog "Network home id : {}" [AStr (home_id_str net)];
    EvLog "Controller node id : {}" [AInt (controller_node_id (controller net))];
    EvLog "Controller node version : {}" [AInt (controller_node_version (controller net))];
    EvLog "Nodes in network : {}" [AInt (nodes_count net)];
    EvLog rule [] ].

(** The lines [signal_network_ready] logs before it touches the device. *)
Definition ready_logs (net : ZWaveNetwork) : list Event :=
  ozw_debug_logs net ++ [EvLog "Network is ready!" []].

(** The network after [nodes[node_key].values[val_key].data = x]. *)
Definition network_with_data (net : ZWaveNetwork) (node_key val_key : Z)
    (node : ZWaveNode) (val : ZWaveValue) (x : PyNum) : ZWaveNetwork :=
  with_nodes net
    (dict_set (nodes net) node_key
       (with_values node (dict_set (values node) val_key (with_data val x)))).

(** Whether node 3 and its [CONFIG_NUMBER] value are in the node table. *)
Definition config_value (net : ZWaveNetwork) : option ZWaveValue :=
  node ← dict_get (nodes net) 3; dict_get (values node) CONFIG_NUMBER.

(** ** What the polling loop and the callbacks may append to the trace *)

(** An event of the two statements that publish one reading. *)
Definition published_event (e : Event) : Prop :=
  match e with
  | EvLog fmt _ => fmt = "Received value refresh %s: %s"
  | EvWritePoints ps =>
      ∃ node val now,
        ps = [value_refresh_point node val now]
        ∧ label val ∈ labels_to_be_polled
  | _ => False
  end.

(** An event is harmless for the whitelist when it is not a write, or
    writes one point built from a whitelisted value. *)
Definition whitelisted_event (e : Event) : Prop :=
  match e with
  | EvWritePoints ps =>
      ∃ node val now,
        ps = [value_refresh_point node val now]
        ∧ label val ∈ labels_to_be_polled
  | _ => True
  end.

(** A configuration write is to node 3, key [CONFIG_NUMBER], value [x]. *)
Definition sets_only (x : PyNum) (e : Event) : Prop :=
  match e with
  | EvSetData node_key val_key y =>
      node_key = 3 ∧ val_key = CONFIG_NUMBER ∧ y = x
  | _ => True
  end.

(** [w'] is [w] with events satisfying [P] appended to its trace. *)
Definition grows (P : Event -> Prop) (w w' : World) : Prop :=
  ∃ evs, trace w' = trace w ++ evs ∧ Forall P evs.

(** [w'] is [w] after a computation that appended only events satisfying
    [P] and touched neither the timers nor the identity of the network. *)
Definition extends (P : Event -> Prop) (w w' : World) : Prop :=
  self_network w' = self_network w
  ∧ timers w' = timers w
  ∧ grows P w w'.

(** A computation keeps the relation [R] between the world it starts from
    and the world it leaves, whether it returns or raises. *)
Definition keeps (R : relation World) {A} (m : M A) : Prop :=
  ∀ w, R w (m w).2.

(** ** Sample devices *)

Definition sample_clock (k : nat) : string := "Tue Nov  3 11:14:00 2026".

Definition always_ok (k : nat) : bool := true.

(** The InfluxDB client raises on the first write call and on no other. *)
Definition first_write_raises (k : nat) : bool := negb (Nat.eqb k 0).

Definition temperature : ZWaveValue :=
  {| id_on_network := "0184d9a3.3.31.1.1"; value_id := 72057594093256722;
     label := "Temperature"; data := NFloat (43 # 2); units := "C" |}.

Definition humidity : ZWaveValue :=
  {| id_on_network := "0184d9a3.3.31.1.5"; value_id := 72057594093256786;
     label := "Relative Humidity"; data := NInt 40; units := "%" |}.

Definition group1_interval : ZWaveValue :=
  {| id_on_network := "0184d9a3.3.70.1.111"; value_id := CONFIG_NUMBER;
     label := "Group 1 Interval"; data := NInt 3600; units := "seconds" |}.

Definition power : ZWaveValue :=
  {| id_on_network := "0184d9a3.4.32.1.8"; value_id := 72057594109853736;
     label := "Power"; data := NFloat (25 # 10); units := "W" |}.

(** A multisensor: node 3, reporting temperature and humidity. *)
Definition multisensor : ZWaveNode :=
  {| isinstance_ZWaveNodeSensor := true;
     get_sensors := [72057594093256722; 72057594093256786];
     home_id := 25483683; node_id := 3;
     manufacturer_id := "0x0086"; product_id := "0x0059";
     values := [(72057594093256722, temperature);
                (72057594093256786, humidity);
                (CONFIG_NUMBER, group1_interval)] |}.

(** The device of the concrete scenario: node 3 with one Temperature value. *)
Definition thermometer : ZWaveNode :=
  {| isinstance_ZWaveNodeSensor := true;
     get_sensors := [72057594093256722];
     home_id := 25483683; node_id := 3;
     manufacturer_id := "0x0086"; product_id := "0x0059";
     values := [(72057594093256722, temperature)] |}.

(** A power meter: [get_sensors()] is not empty, no label is polled. *)
Definition power_meter : ZWaveNode :=
  {| isinstance_ZWaveNodeSensor := true;
     get_sensors := [72057594109853736];
     home_id := 25483683; node_id := 4;
     manufacturer_id := "0x0086"; product_id := "0x0060";
     values := [(72057594109853736, power)] |}.

(** A node that exposes a Temperature value for which [get_sensors()] is
    empty. *)
Definition thermostat : ZWaveNode :=
  {| isinstance_ZWaveNodeSensor := true;
     get_sensors := [];
     home_id := 25483683; node_id := 5;
     manufacturer_id := "0x0086"; product_id := "0x0061";
     values := [(72057594093256722, temperature)] |}.

Definition sample_controller : ZWaveController :=
  {| ozw_library_version := "1.4.3254"; python_library_version := "0.4.19";
     library_description := "Static Controller";
     controller_node_id := 1; controller_node_version := 4 |}.

Definition network_of (started : bool) (ns : dict ZWaveNode) : ZWaveNetwork :=
  {| controller := sample_controller; home_id_str := "0x0184d9a3";
     nodes_count := Z.of_nat (length ns); is_started := started; nodes := ns |}.

Definition world_of (net : ZWaveNetwork) : World :=
  {| self_network := 0%nat; network := net; timers := 0%nat;
     clock_reads := 0%nat; write_calls := 0%nat; trace := [] |}.

(** A running network that has discovered the multisensor. *)
Definition sample_world : World := world_of (network_of true [(3, multisensor)]).

(** The concrete scenario. *)
Definition scenario_world : World := world_of (network_of true [(3, thermometer)]).

(** A network on which start() has not run and whose node table is empty. *)
Definition fresh_world : World := world_of (network_of false []).

(** ** Notions used to describe whole runs *)

Global Instance Input_eq_dec : EqDecision Input.
Proof. solve_decision. Defined.

(** [nodes[node_key].values[val_key]], [None] when either key is missing. *)
Definition lookup_value (net : ZWaveNetwork) (node_key val_key : Z)
    : option ZWaveValue :=
  node ← dict_get (nodes net) node_key; dict_get (values node) val_key.

(** What the callbacks read of a node besides its values. *)
Definition node_identity (node : ZWaveNode)
    : bool * list Z * Z * Z * string * string :=
  (isinstance_ZWaveNodeSensor node, get_sensors node, home_id node,
   node_id node, manufacturer_id node, product_id node).

(** Two entries of a value dictionary of the node under [node_key]: the
    same key, and the same value unless this is the [CONFIG_NUMBER] value of
    node 3, of which the data may differ. *)
Definition same_value (node_key : Z) (kv kv' : Z * ZWaveValue) : Prop :=
  kv.1 = kv'.1
  ∧ (kv'.2 = kv.2
     ∨ (node_key = 3 ∧ kv.1 = CONFIG_NUMBER ∧ ∃ x, kv'.2 = with_data kv.2 x)).

Definition same_node (kn kn' : Z * ZWaveNode) : Prop :=
  kn.1 = kn'.1
  ∧ node_identity kn'.2 = node_identity kn.2
  ∧ Forall2 (same_value kn.1) (values kn.2) (values kn'.2).

(** Two node tables of the same shape that differ at most in the data of
    node 3's [CONFIG_NUMBER] value. *)
Definition same_table (ns ns' : dict ZWaveNode) : Prop := Forall2 same_node ns ns'.

(** [w'] holds the same network object as [w], with a node table of the
    same shape. *)
Definition same_shape (w w' : World) : Prop :=
  self_network w' = self_network w
  ∧ same_table (nodes (network w)) (nodes (network w')).

(** [w'] holds the same network object as [w], with a node table that is
    empty or of the same shape. *)
Definition shape_or_empty (w w' : World) : Prop :=
  self_network w' = self_network w
  ∧ (nodes (network w') = []
     ∨ same_table (nodes (network w)) (nodes (network w'))).

(** A ready notification that carries another network than [me]. *)
Definition is_foreign_ready (me : ref) (i : Input) : bool :=
  match i with
  | NetworkReady r => bool_decide (r ≠ me)
  | _ => false
  end.

(** What a run without cycling may do: log, start and stop the network,
    and lower the poll rate. *)
Definition idle_event (e : Event) : Prop :=
  match e with
  | EvLog _ _ | EvNetworkStart | EvNetworkStop => True
  | EvSetData node_key val_key x =>
      node_key = 3 ∧ val_key = CONFIG_NUMBER ∧ x = NInt 3600
  | EvTimer _ | EvWritePoints _ => False
  end.

Definition is_network_stop (e : Event) : bool :=
  match e with EvNetworkStop => true | _ => false end.

(** The log line and the write call that publish one reading at time
    [now]. *)
Definition refresh_events (r : ZWaveNode * ZWaveValue * string) : list Event :=
  [ EvLog "Received value refresh %s: %s"
      [AStr (id_on_network r.1.2); AValue r.1.2];
    EvWritePoints [value_refresh_point r.1.1 r.1.2 r.2] ].

(** [w'] is [w] with the events of some published readings appended. *)
Definition refreshes (w w' : World) : Prop :=
  ∃ l : list (ZWaveNode * ZWaveValue * string),
    trace w' = trace w ++ (l ≫= refresh_events).

(** [w'] has the network of [w]. *)
Definition same_network (w w' : World) : Prop := network w' = network w.

(** * Properties *)

(** ** Dictionaries *)

Section Dict.

Context {V : Type}.
Implicit Types (d : dict V) (k : Z) (v : V).

Lemma dict_get_elem d k v : dict_wf d → (k, v) ∈ d → dict_get d k = Some v.
Proof.
  unfold dict_wf, keys. induction d as [|[k' v'] d IH]; simpl.
  - intros _ H. by apply elem_of_nil in H.
  - intros Hnd Hin. apply NoDup_cons in Hnd as [Hk' Hnd].
    apply elem_of_cons in Hin as [[= -> ->] | Hin].
    + by rewrite decide_True.
    + rewrite decide_False; [by apply IH|].
      intros ->. apply Hk'. apply list_elem_of_fmap. by exists (k, v).
Qed.

Lemma dict_wf_app_inv d1 kv d2 : dict_wf (d1 ++ kv :: d2) → dict_wf (d1 ++ d2).
Proof.
  unfold dict_wf, keys. rewrite !fmap_app, fmap_cons.
  intros H. apply NoDup_app in H as (H1 & H12 & H2).
  apply NoDup_cons in H2 as [_ H2]. apply NoDup_app. split_and!; [done| |done].
  intros x Hx Hx2. apply (H12 x Hx). by right.
Qed.

End Dict.

(** ** One step of the monad *)

Lemma bind_Ok {A B} (m : M A) (k : A -> M B) w a w' :
  m w = (Ok a, w') → bind m k w = k a w'.
Proof. unfold bind. by intros ->. Qed.

Lemma bind_Raise {A B} (m : M A) (k : A -> M B) w e w' :
  m w = (Raise e, w') → bind m k w = (Raise e, w').
Proof. unfold bind. by intros ->. Qed.

Lemma for_each_app {A} (l1 l2 : list A) (body : A -> M unit) w :
  for_each (l1 ++ l2) body w = (for_each l1 body ;; for_each l2 body) w.
Proof.
  revert w. induction l1 as [|x l1 IH]; intros w; simpl; [done|].
  unfold bind. destruct (body x w) as [[[]|e] w1]; [|done].
  rewrite IH. done.
Qed.

Lemma advance_advance n1 evs1 n2 evs2 w :
  advance n2 evs2 (advance n1 evs1 w) = advance (n1 + n2) (evs1 ++ evs2) w.
Proof.
  unfold advance; simpl. f_equal; [lia | lia | by rewrite app_assoc].
Qed.

Lemma advance_0 w : advance 0 [] w = w.
Proof.
  destruct w. unfold advance; simpl.
  f_equal; [lia | lia | by rewrite app_nil_r].
Qed.

Lemma new_events_app {A} (m : M A) w evs :
  trace (m w).2 = trace w ++ evs → new_events m w = evs.
Proof. unfold new_events. intros ->. by rewrite drop_app_length. Qed.

Section Cycle.

Variable asctime : nat -> string.
Variable write_points_ok : nat -> bool.

Abbreviation publish := (publish asctime write_points_ok).
Abbreviation poll_value := (poll_value asctime write_points_ok).
Abbreviation poll_node := (poll_node asctime write_points_ok).
Abbreviation start_polling := (start_polling asctime write_points_ok).
Abbreviation publish_events := (publish_events asctime write_points_ok).
Abbreviation publish_count := (publish_count write_points_ok).
Abbreviation publish_result := (publish_result write_points_ok).

(** *** The loop over the selected readings is the pure trace function *)

Lemma publish_one node val w :
  publish (node, val) w =
    (if write_points_ok (write_calls w) then Ok tt
     else Raise InfluxDBClientError,
     advance 1
       [EvLog "Received value refresh %s: %s"
          [AStr (id_on_network val); AValue val];
        EvWritePoints [value_refresh_point node val (asctime (clock_reads w))]]
       w).
Proof.
  unfold publish, bind, logger_info, value_refresh_to_influxdb_json,
    write_points, advance, emit; simpl.
  rewrite <- app_assoc; simpl.
  replace (clock_reads w + 1)%nat with (S (clock_reads w)) by lia.
  replace (write_calls w + 1)%nat with (S (write_calls w)) by lia.
  by destruct (write_points_ok (write_calls w)).
Qed.

Lemma for_each_publish sel w :
  for_each sel publish w =
    (publish_result sel (write_calls w),
     advance (publish_count sel (write_calls w))
       (publish_events sel (clock_reads w) (write_calls w)) w).
Proof.
  revert w. induction sel as [|[node val] sel IH]; intros w.
  - simpl. unfold ret. by rewrite advance_0.
  - cbn [for_each publish_result publish_count publish_events].
    unfold bind. rewrite publish_one.
    destruct (write_points_ok (write_calls w)) eqn:Hok; [|done].
    rewrite IH, advance_advance. cbn [advance write_calls clock_reads].
    replace (write_calls w + 1)%nat with (S (write_calls w)) by lia.
    replace (clock_reads w + 1)%nat with (S (clock_reads w)) by lia.
    done.
Qed.

Lemma for_each_publish_network sel w :
  network (for_each sel publish w).2 = network w.
Proof. by rewrite for_each_publish. Qed.

(** *** The nested loops visit exactly the selected readings *)

Lemma poll_values_flat node_id node n (vs : dict ZWaveValue) w :
  dict_get (nodes (network w)) node_id = Some n →
  Forall (fun kv => dict_get (values n) kv.1 = Some kv.2) vs →
  for_each (keys vs) (poll_value node_id node) w =
    for_each ((fun val => (node, val)) <$> polled_values vs) publish w.
Proof.
  intros Hn Hvs. revert w Hn.
  induction Hvs as [|[k v] vs Hkv Hvs IH]; intros w Hn; [done|].
  simpl in Hkv. unfold polled_values, keys in *. rewrite !fmap_cons.
  cbn [for_each fst snd]. rewrite filter_cons.
  assert (Hbody : poll_value node_id node k w =
    if decide (label v ∈ labels_to_be_polled) then publish (node, v) w
    else (Ok tt, w)).
  { unfold poll_value, bind, network_nodes, getitem. rewrite Hn.
    unfold ret at 1. rewrite Hkv. unfold ret at 1. by case_decide. }
  unfold bind at 1. rewrite Hbody. case_decide as Hl.
  - rewrite fmap_cons. cbn [for_each]. unfold bind at 1.
    destruct (publish (node, v) w) as [[[]|e] w1] eqn:Hp; [|done].
    apply IH.
    assert (network w1 = network w) as ->; [|done].
    change w1 with ((Ok (), w1).2). rewrite <- Hp.
    by rewrite publish_one.
  - by apply IH.
Qed.

Lemma poll_nodes_flat (ns : dict ZWaveNode) w :
  Forall (fun kn => dict_get (nodes (network w)) kn.1 = Some kn.2) ns →
  Forall (fun kn => dict_wf (values kn.2)) ns →
  for_each ns poll_node w = for_each (whitelisted_readings ns) publish w.
Proof.
  intros Hns Hwf. revert w Hns.
  induction Hwf as [|[k node] ns Hv Hwf IH]; intros w Hns; [done|].
  apply Forall_cons in Hns as [Hk Hns]. simpl in Hk, Hv.
  unfold whitelisted_readings. rewrite bind_cons. cbn [snd].
  fold (whitelisted_readings ns). rewrite for_each_app.
  cbn [for_each]. unfold bind.
  assert (Hbody : poll_node (k, node) w = for_each (node_readings node) publish w).
  { unfold poll_node, node_readings. destruct (is_sensor node); [|done].
    unfold bind, network_nodes, getitem. rewrite Hk. unfold ret at 1.
    apply (poll_values_flat k node node); [done|].
    apply Forall_forall. intros [j v] Hin. by apply dict_get_elem. }
  rewrite Hbody.
  destruct (for_each (node_readings node) publish w) as [[[]|e] w1] eqn:Hp; [|done].
  apply IH.
  assert (network w1 = network w) as ->; [|done].
  change w1 with ((Ok (), w1).2). rewrite <- Hp.
  apply for_each_publish_network.
Qed.

Lemma network_wf_lookups net :
  network_wf net →
  Forall (fun kn => dict_get (nodes net) kn.1 = Some kn.2) (nodes net).
Proof.
  intros [Hwf _]. apply Forall_forall. intros [k n] Hin.
  by apply dict_get_elem.
Qed.

(** One cycle: arm the next timer, then publish the selected readings in
    order until a write raises. *)
Lemma start_polling_publish w :
  network_wf (network w) →
  start_polling w =
    for_each (whitelisted_readings (nodes (network w))) publish (arm w).
Proof.
  intros Hwf. unfold start_polling.
  unfold bind at 1. unfold Timer_start at 1.
  unfold bind at 1. unfold network_nodes at 1.
  change (emit (EvTimer TIME_INTERVAL) _) with (arm w).
  change (nodes (network (arm w))) with (nodes (network w)).
  apply (poll_nodes_flat (nodes (network w)) (arm w)).
  - by apply network_wf_lookups.
  - apply Hwf.
Qed.

Lemma publish_count_le sel k : (publish_count sel k ≤ length sel)%nat.
Proof.
  revert k. induction sel as [|r sel IH]; intros k; simpl; [lia|].
  destruct (write_points_ok k); [specialize (IH (S k))|]; lia.
Qed.

Lemma publish_count_gt sel k n :
  (∀ i, (i < n)%nat → write_points_ok (k + i) = true) →
  (n < length sel)%nat → (n < publish_count sel k)%nat.
Proof.
  revert k n. induction sel as [|r sel IH]; intros k n Hok Hn; simpl in *; [lia|].
  destruct n as [|n].
  - destruct (write_points_ok k); lia.
  - rewrite <- (Nat.add_0_r k) at 1. rewrite Hok by lia.
    cut (n < publish_count sel (S k))%nat; [lia|]. apply IH; [|lia].
    intros i Hi. replace (S k + i)%nat with (k + S i)%nat by lia.
    apply Hok. lia.
Qed.

Lemma publish_all_ok sel k :
  (∀ i, (i < length sel)%nat → write_points_ok (k + i) = true) →
  publish_count sel k = length sel ∧ publish_result sel k = Ok tt.
Proof.
  revert k. induction sel as [|r sel IH]; intros k Hok; simpl in *; [done|].
  rewrite <- (Nat.add_0_r k) at 1 2. rewrite Hok by lia.
  destruct (IH (S k)) as [-> ->]; [|done].
  intros i Hi. replace (S k + i)%nat with (k + S i)%nat by lia.
  apply Hok. lia.
Qed.

Lemma publish_result_Raise sel k e :
  publish_result sel k = Raise e →
  e = InfluxDBClientError
  ∧ (0 < publish_count sel k)%nat
  ∧ write_points_ok (k + pred (publish_count sel k)) = false.
Proof.
  revert k. induction sel as [|r sel IH]; intros k; simpl; [done|].
  destruct (write_points_ok k) eqn:Hk.
  - intros H. destruct (IH _ H) as (-> & Hpos & Hf). split_and!; [done|lia|].
    simpl. replace (k + publish_count sel (S k))%nat
      with (S k + pred (publish_count sel (S k)))%nat by lia. done.
  - intros [= <-]. split_and!; [done|lia|]. simpl. by rewrite Nat.add_0_r.
Qed.

Lemma writes_of_publish_events sel c k :
  writes_of (publish_events sel c k) = sent asctime c (take (publish_count sel k) sel).
Proof.
  revert c k. induction sel as [|[node val] sel IH]; intros c k; simpl; [done|].
  destruct (write_points_ok k); simpl; [|done].
  f_equal. apply IH.
Qed.

Lemma sent_length c sel : length (sent asctime c sel) = length sel.
Proof. revert c. induction sel as [|[??] sel IH]; intros c; simpl; auto. Qed.

Lemma sent_lookup c sel i r :
  sel !! i = Some r →
  sent asctime c sel !! i = Some [value_refresh_point r.1 r.2 (asctime (c + i))].
Proof.
  revert c i. induction sel as [|[node val] sel IH]; intros c i; [done|].
  destruct i as [|i]; simpl.
  - intros [= <-]. by rewrite Nat.add_0_r.
  - intros H. rewrite (IH (S c) i H).
    by replace (c + S i)%nat with (S c + i)%nat by lia.
Qed.

Lemma sent_Forall2 c sel :
  Forall2 (fun r ps => ∃ now, ps = [value_refresh_point r.1 r.2 now])
    sel (sent asctime c sel).
Proof.
  revert c. induction sel as [|[node val] sel IH]; intros c; simpl;
    constructor; eauto.
Qed.

Lemma start_polling_spec w :
  network_wf (network w) →
  let sel := whitelisted_readings (nodes (network w)) in
  start_polling w =
    (publish_result sel (write_calls w),
     advance (publish_count sel (write_calls w))
       (publish_events sel (clock_reads w) (write_calls w)) (arm w)).
Proof. intros Hwf sel. by rewrite start_polling_publish, for_each_publish. Qed.

Lemma start_polling_events w :
  network_wf (network w) →
  new_events start_polling w =
    EvTimer TIME_INTERVAL
    :: publish_events (whitelisted_readings (nodes (network w)))
         (clock_reads w) (write_calls w).
Proof.
  intros Hwf. apply new_events_app. rewrite start_polling_spec by done.
  simpl. by rewrite <- app_assoc.
Qed.

Lemma start_polling_writes w :
  network_wf (network w) →
  let sel := whitelisted_readings (nodes (network w)) in
  writes_of (new_events start_polling w) =
    sent asctime (clock_reads w) (take (publish_count sel (write_calls w)) sel).
Proof.
  intros Hwf sel. rewrite start_polling_events by done.
  apply writes_of_publish_events.
Qed.

Lemma whitelisted_readings_split pre k D post vpre j V vpost :
  values D = vpre ++ (j, V) :: vpost →
  is_sensor D = true →
  label V ∈ labels_to_be_polled →
  whitelisted_readings (pre ++ (k, D) :: post) =
    (whitelisted_readings pre ++ ((fun v => (D, v)) <$> polled_values vpre))
    ++ (D, V) :: (((fun v => (D, v)) <$> polled_values vpost)
                  ++ whitelisted_readings post).
Proof.
  intros Hv Hs Hl. unfold whitelisted_readings.
  rewrite bind_app, bind_cons. cbn [snd]. unfold node_readings at 2.
  rewrite Hs, Hv. unfold polled_values.
  rewrite fmap_app, fmap_cons, filter_app, filter_cons. cbn [snd].
  rewrite decide_True by done.
  rewrite fmap_app, fmap_cons, <- !app_assoc. done.
Qed.

(** C1 (as amended): for every device D classified as a sensor and every
    value V of D whose label is in the whitelist, one poll cycle in which no
    earlier write raises issues one write call for (D,V), holding exactly
    one point whose measurement is "value_refresh", whose tags are D's and
    V's identifying fields and whose fields hold V's datum as a float and
    its unit string. The write calls of the cycle correspond one to one, in
    order, to the first selected readings, one point per call, and the
    call for (D,V) is among them. *)
Theorem cycle_emits_one_point_per_reading w pre k D post vpre j V vpost :
  network_wf (network w) →
  nodes (network w) = pre ++ (k, D) :: post →
  values D = vpre ++ (j, V) :: vpost →
  is_sensor D = true →
  label V ∈ labels_to_be_polled →
  let before :=
    whitelisted_readings pre ++ ((fun v => (D, v)) <$> polled_values vpre) in
  (∀ i, (i < length before)%nat → write_points_ok (write_calls w + i) = true) →
  let calls := writes_of (new_events start_polling w) in
  (∃ p, calls !! length before = Some [p]
        ∧ measurement p = "value_refresh"
        ∧ tags p = {[ "id_on_network" := PyStr (id_on_network V);
                      "home_id" := PyInt (home_id D);
                      "node_id" := PyInt (node_id D);
                      "value_id" := PyInt (value_id V);
                      "manufacturer_id" := PyStr (manufacturer_id D);
                      "product_id" := PyStr (product_id D);
                      "label" := PyStr (label V) ]}
        ∧ fields p !! "data" = Some (PyFloat (float (data V)))
        ∧ fields p !! "units" = Some (PyStr (units V)))
  ∧ Forall2 (fun r ps => ∃ now, ps = [value_refresh_point r.1 r.2 now])
      (take (length calls) (whitelisted_readings (nodes (network w)))) calls.
Proof.
  intros Hwf Hns Hvs Hs Hl before Hok calls.
  pose proof (start_polling_writes w Hwf) as Hcalls. simpl in Hcalls.
  fold calls in Hcalls.
  set (sel := whitelisted_readings (nodes (network w))) in *.
  assert (Hsel : sel = before ++ (D, V) :: (((fun v => (D, v)) <$> polled_values vpost)
                  ++ whitelisted_readings post)).
  { unfold sel. rewrite Hns. by apply (whitelisted_readings_split _ _ _ _ _ j). }
  assert (Hlt : (length before < publish_count sel (write_calls w))%nat).
  { apply publish_count_gt; [done|]. rewrite Hsel, length_app. simpl. lia. }
  pose proof (publish_count_le sel (write_calls w)) as Hle.
  split.
  - exists (value_refresh_point D V (asctime (clock_reads w + length before))).
    split_and!; try done.
    rewrite Hcalls.
    apply (sent_lookup _ _ _ (D, V)).
    rewrite lookup_take_lt by done.
    rewrite Hsel. by rewrite list_lookup_middle.
  - rewrite Hcalls, sent_length, length_take.
    rewrite Nat.min_l by done. apply sent_Forall2.
Qed.

End Cycle.

(** ** Facts about the sample devices *)

Lemma sample_world_wf : network_wf (network sample_world).
Proof.
  split; [|repeat constructor]; simpl; unfold dict_wf, keys; simpl;
    by apply (bool_decide_unpack _).
Qed.

Lemma humidity_is_polled : label humidity ∈ labels_to_be_polled.
Proof. vm_compute. reflexivity. Qed.

Lemma temperature_is_polled : label temperature ∈ labels_to_be_polled.
Proof. vm_compute. reflexivity. Qed.

Lemma sample_readings :
  whitelisted_readings (nodes (network sample_world))
  = [(multisensor, temperature); (multisensor, humidity)].
Proof. vm_compute. reflexivity. Qed.

Lemma cycle_emits_one_point_per_reading_witness :
  ∃ p, writes_of (new_events (start_polling sample_clock always_ok) sample_world)
         !! 1%nat = Some [p]
       ∧ tags p = point_tags multisensor humidity
       ∧ fields p !! "data" = Some (PyFloat (inject_Z 40))
       ∧ fields p !! "units" = Some (PyStr "%").
Proof.
  destruct (cycle_emits_one_point_per_reading sample_clock always_ok sample_world
              [] 3 multisensor []
              [(72057594093256722, temperature)] 72057594093256786 humidity
              [(CONFIG_NUMBER, group1_interval)])
    as [(p & Hp & _ & Ht & Hd & Hu) _].
  - exact sample_world_wf.
  - reflexivity.
  - reflexivity.
  - reflexivity.
  - exact humidity_is_polled.
  - intros i _. reflexivity.
  - exists p. split; [exact Hp|]. split; [exact Ht|]. split; [exact Hd | exact Hu].
Defined.

(** C1 (as stated) fails when an earlier write of the cycle raises: the
    multisensor is classified as a sensor and its humidity value is
    whitelisted, yet the cycle in which the temperature write raises issues
    that one write call only and no point for the humidity value. *)
Lemma raising_write_drops_later_readings :
  network_wf (network sample_world)
  ∧ (3, multisensor) ∈ nodes (network sample_world)
  ∧ (72057594093256786, humidity) ∈ values multisensor
  ∧ is_sensor multisensor = true
  ∧ label humidity ∈ labels_to_be_polled
  ∧ writes_of (new_events (start_polling sample_clock first_write_raises) sample_world)
    = [[value_refresh_point multisensor temperature (sample_clock 0)]]
  ∧ ¬ ∃ now, [value_refresh_point multisensor humidity now]
             ∈ writes_of (new_events (start_polling sample_clock first_write_raises)
                            sample_world).
Proof.
  assert (Hw : writes_of (new_events (start_polling sample_clock first_write_raises)
                            sample_world)
               = [[value_refresh_point multisensor temperature (sample_clock 0)]]).
  { rewrite start_polling_writes by exact sample_world_wf.
    rewrite sample_readings. reflexivity. }
  split_and!.
  - exact sample_world_wf.
  - set_solver.
  - set_solver.
  - reflexivity.
  - exact humidity_is_polled.
  - exact Hw.
  - rewrite Hw. intros [now Hin]. apply list_elem_of_singleton in Hin.
    apply (f_equal (fun ps => match ps with
                              | [p] => tags p !! "label"
                              | _ => None
                              end)) in Hin.
    vm_compute in Hin. discriminate Hin.
Qed.

(** ** The concrete scenario *)

Lemma publish_count_one (ok : nat -> bool) r k : publish_count ok [r] k = 1%nat.
Proof. simpl. by destruct (ok k). Qed.

(** C8 (as amended): a sensor device with id 3, manufacturer id "0x0086"
    and product id "0x0059" that exposes one value, labelled "Temperature"
    with datum 21.5 and units "C": one poll cycle issues exactly one write
    call, of one point, whose measurement is "value_refresh", whose tags
    include label = "Temperature" and the ids of the device, and whose
    fields are data = 21.5, units = "C", type = "none" and type_val = 0. *)
Theorem scenario_cycle_writes_one_point asctime ok w k D j V :
  nodes (network w) = [(k, D)] →
  is_sensor D = true →
  node_id D = 3 →
  manufacturer_id D = "0x0086" →
  product_id D = "0x0059" →
  values D = [(j, V)] →
  label V = "Temperature" →
  data V = NFloat (43 # 2) →
  units V = "C" →
  ∃ p, writes_of (new_events (start_polling asctime ok) w) = [[p]]
       ∧ measurement p = "value_refresh"
       ∧ tags p !! "label" = Some (PyStr "Temperature")
       ∧ tags p !! "node_id" = Some (PyInt 3)
       ∧ tags p !! "manufacturer_id" = Some (PyStr "0x0086")
       ∧ tags p !! "product_id" = Some (PyStr "0x0059")
       ∧ fields p = {[ "data" := PyFloat (43 # 2); "units" := PyStr "C";
                       "type" := PyStr "none"; "type_val" := PyInt 0 ]}.
Proof.
  intros Hns Hs Hid Hm Hp Hvs Hl Hd Hu.
  assert (Hwf : network_wf (network w)).
  { unfold network_wf. rewrite Hns. split; [|repeat constructor; simpl; rewrite Hvs];
      unfold dict_wf, keys; simpl; apply NoDup_singleton. }
  assert (Hsel : whitelisted_readings (nodes (network w)) = [(D, V)]).
  { rewrite Hns. unfold whitelisted_readings. simpl. unfold node_readings.
    rewrite Hs, Hvs. unfold polled_values. simpl. rewrite filter_cons, Hl.
    rewrite decide_True by exact temperature_is_polled. done. }
  exists (value_refresh_point D V (asctime (clock_reads w))).
  split_and!.
  - rewrite start_polling_writes by done. simpl. rewrite Hsel.
    by rewrite publish_count_one.
  - done.
  - simpl. unfold point_tags, str. rewrite Hl. by simplify_map_eq.
  - simpl. unfold point_tags. rewrite Hid. by simplify_map_eq.
  - simpl. unfold point_tags. rewrite Hm. by simplify_map_eq.
  - simpl. unfold point_tags. rewrite Hp. by simplify_map_eq.
  - simpl. unfold point_fields, str. by rewrite Hd, Hu.
Qed.

Lemma scenario_cycle_writes_one_point_witness :
  ∃ p, writes_of (new_events (start_polling sample_clock always_ok) scenario_world)
       = [[p]]
       ∧ tags p !! "label" = Some (PyStr "Temperature")
       ∧ fields p = {[ "data" := PyFloat (43 # 2); "units" := PyStr "C";
                       "type" := PyStr "none"; "type_val" := PyInt 0 ]}.
Proof.
  destruct (scenario_cycle_writes_one_point sample_clock always_ok scenario_world
              3 thermometer 72057594093256722 temperature)
    as (p & Hw & _ & Hl & _ & _ & _ & Hf); try reflexivity.
  exists p. split; [exact Hw|]. split; [exact Hl | exact Hf].
Defined.

(** C8 (as stated) fails on the fields: the one point written in the
    scenario carries "type" and "type_val" besides "data" and "units". *)
Lemma scenario_point_has_four_fields :
  ∃ p, writes_of (new_events (start_polling sample_clock always_ok) scenario_world)
       = [[p]]
       ∧ measurement p = "value_refresh"
       ∧ tags p !! "label" = Some (PyStr "Temperature")
       ∧ fields p !! "type" = Some (PyStr "none")
       ∧ fields p !! "type_val" = Some (PyInt 0)
       ∧ fields p ≠ {[ "data" := PyFloat (43 # 2); "units" := PyStr "C" ]}.
Proof.
  exists (value_refresh_point thermometer temperature (sample_clock 0)).
  split_and!; try (vm_compute; reflexivity).
  intros H. apply (f_equal (fun m => m !! "type")) in H.
  vm_compute in H. discriminate H.
Qed.

(** ** Devices without a polled value; the sensor classification *)

Lemma is_sensor_spec node :
  is_sensor node = true
  ↔ isinstance_ZWaveNodeSensor node = true ∧ get_sensors node ≠ [].
Proof.
  unfold is_sensor. rewrite andb_true_iff, negb_true_iff, bool_decide_eq_false.
  split; intros [? H]; (split; [done|]); intros Hn; apply H.
  - by rewrite Hn.
  - by apply length_zero_iff_nil.
Qed.

Lemma node_readings_nil D :
  (∀ j V, (j, V) ∈ values D → label V ∉ labels_to_be_polled) →
  node_readings D = [].
Proof.
  intros H. unfold node_readings. destruct (is_sensor D); [|done].
  unfold polled_values.
  assert (Hf : filter (fun val => label val ∈ labels_to_be_polled) (values D).*2 = []);
    [|by rewrite Hf].
  destruct (filter _ _) as [|V l] eqn:Hf; [done|].
  assert (HV : V ∈ filter (fun val => label val ∈ labels_to_be_polled) (values D).*2)
    by (rewrite Hf; left).
  apply list_elem_of_filter in HV as [Hl HV].
  apply list_elem_of_fmap in HV as [[j V'] [-> Hin]]. by destruct (H j V').
Qed.

Lemma whitelisted_readings_remove pre k D post :
  node_readings D = [] →
  whitelisted_readings (pre ++ (k, D) :: post) = whitelisted_readings (pre ++ post).
Proof.
  intros HD. unfold whitelisted_readings.
  rewrite !bind_app, bind_cons. cbn [snd]. by rewrite HD.
Qed.

(** C5 (as amended): a device none of whose values carries a whitelisted
    label produces no Record: the cycle does what it does on the network
    without that device. Whether a device is classified as a sensor does not
    depend on the whitelist: it is when it is an instance of ZWaveNodeSensor
    and its get_sensors() is not empty. *)
Theorem device_without_polled_values asctime ok w pre k D post :
  network_wf (network w) →
  nodes (network w) = pre ++ (k, D) :: post →
  (∀ j V, (j, V) ∈ values D → label V ∉ labels_to_be_polled) →
  let w' := set_network (with_nodes (network w) (pre ++ post)) w in
  node_readings D = []
  ∧ new_events (start_polling asctime ok) w = new_events (start_polling asctime ok) w'
  ∧ (start_polling asctime ok w).1 = (start_polling asctime ok w').1
  ∧ (∀ node, is_sensor node = true
             ↔ isinstance_ZWaveNodeSensor node = true ∧ get_sensors node ≠ []).
Proof.
  intros Hwf Hns HD w'.
  pose proof (node_readings_nil D HD) as Hnil.
  assert (Hwf' : network_wf (network w')).
  { destruct Hwf as [H1 H2]. rewrite Hns in H1, H2. split; simpl.
    - by apply dict_wf_app_inv in H1.
    - apply Forall_app in H2 as [Ha Hb]. apply Forall_cons in Hb as [_ Hb].
      by apply Forall_app. }
  assert (Hsel : whitelisted_readings (nodes (network w))
                 = whitelisted_readings (nodes (network w'))).
  { rewrite Hns. simpl. by apply whitelisted_readings_remove. }
  split_and!.
  - done.
  - rewrite !start_polling_events by done. by rewrite Hsel.
  - rewrite !start_polling_spec by done. simpl. by rewrite Hsel.
  - apply is_sensor_spec.
Qed.

Lemma device_without_polled_values_witness :
  node_readings power_meter = []
  ∧ new_events (start_polling sample_clock always_ok)
      (world_of (network_of true [(3, multisensor); (4, power_meter)]))
    = new_events (start_polling sample_clock always_ok) sample_world.
Proof.
  destruct (device_without_polled_values sample_clock always_ok
              (world_of (network_of true [(3, multisensor); (4, power_meter)]))
              [(3, multisensor)] 4 power_meter [])
    as (Hn & He & _ & _).
  - split; [|repeat constructor]; simpl; unfold dict_wf, keys; simpl;
      by apply (bool_decide_unpack _).
  - reflexivity.
  - intros j V Hin. apply list_elem_of_singleton in Hin. injection Hin as _ ->.
    vm_compute. discriminate.
  - split; [exact Hn | exact He].
Defined.

(** C5 (as stated) fails on the classification: the power meter has no
    whitelisted value and is classified as a sensor; the thermostat exposes
    a Temperature value and is not. *)
Lemma classification_ignores_whitelist :
  (∀ j V, (j, V) ∈ values power_meter → label V ∉ labels_to_be_polled)
  ∧ is_sensor power_meter = true
  ∧ (72057594093256722, temperature) ∈ values thermostat
  ∧ label temperature ∈ labels_to_be_polled
  ∧ is_sensor thermostat = false.
Proof.
  split_and!.
  - intros j V Hin. apply list_elem_of_singleton in Hin. injection Hin as _ ->.
    vm_compute. discriminate.
  - reflexivity.
  - set_solver.
  - exact temperature_is_polled.
  - reflexivity.
Qed.

(** ** Relations kept by every statement *)

Global Instance grows_preorder P : PreOrder (grows P).
Proof.
  split.
  - intros w. exists []. by rewrite app_nil_r.
  - intros w1 w2 w3 (e1 & H1 & F1) (e2 & H2 & F2). exists (e1 ++ e2).
    split; [by rewrite H2, H1, app_assoc | by apply Forall_app].
Qed.

Global Instance extends_preorder P : PreOrder (extends P).
Proof.
  split.
  - intros w. by split_and!.
  - intros w1 w2 w3 (Hs1 & Ht1 & H1) (Hs2 & Ht2 & H2).
    split_and!; [congruence | congruence | by etrans].
Qed.

Lemma grows_emit (P : Event -> Prop) e w : P e → grows P w (emit e w).
Proof. intros He. exists [e]. split; [done | by constructor]. Qed.

Lemma grows_same_trace P w w' : trace w' = trace w → grows P w w'.
Proof. intros H. exists []. by rewrite app_nil_r. Qed.

Section Keeps.

Context (R : relation World) `{!PreOrder R}.

Lemma keeps_ret {A} (a : A) : keeps R (ret a).
Proof. intros w. simpl. reflexivity. Qed.

Lemma keeps_raise {A} e : keeps R (@raise A e).
Proof. intros w. simpl. reflexivity. Qed.

Lemma keeps_bind {A B} (m : M A) (k : A -> M B) :
  keeps R m → (∀ a, keeps R (k a)) → keeps R (bind m k).
Proof.
  intros Hm Hk w. unfold bind. specialize (Hm w).
  destruct (m w) as [[a|e] w1]; simpl in *; [|done].
  etrans; [exact Hm | apply Hk].
Qed.

Lemma keeps_for_each {A} (l : list A) (body : A -> M unit) :
  (∀ x, keeps R (body x)) → keeps R (for_each l body).
Proof.
  intros Hb. induction l as [|x l IH]; simpl.
  - apply keeps_ret.
  - apply keeps_bind; [apply Hb | intros _; apply IH].
Qed.

Lemma keeps_getitem {V} (d : dict V) k : keeps R (getitem d k).
Proof. unfold getitem. destruct (dict_get d k); [apply keeps_ret | apply keeps_raise]. Qed.

Lemma keeps_network_nodes : keeps R network_nodes.
Proof. intros w. simpl. reflexivity. Qed.

End Keeps.

Section KeepsGrows.

Context (P : Event -> Prop).

Lemma grows_logger_info fmt args :
  P (EvLog fmt args) → keeps (grows P) (logger_info fmt args).
Proof. intros H w. by apply grows_emit. Qed.

Lemma grows_network_start : P EvNetworkStart → keeps (grows P) network_start.
Proof. intros H w. exists [EvNetworkStart]. split; [done | by constructor]. Qed.

Lemma grows_network_stop : P EvNetworkStop → keeps (grows P) network_stop.
Proof. intros H w. exists [EvNetworkStop]. split; [done | by constructor]. Qed.

Lemma grows_set_value_data node_key val_key x :
  P (EvSetData node_key val_key x) →
  keeps (grows P) (set_value_data node_key val_key x).
Proof.
  intros H. unfold set_value_data.
  apply keeps_bind; [apply _ | apply keeps_network_nodes, _ |]. intros ns.
  apply keeps_bind; [apply _ | apply keeps_getitem, _ |]. intros node.
  apply keeps_bind; [apply _ | apply keeps_getitem, _ |]. intros val w.
  exists [EvSetData node_key val_key x]. split; [done | by constructor].
Qed.

Lemma grows_ozw_debug : (∀ fmt args, P (EvLog fmt args)) → keeps (grows P) ozw_debug.
Proof.
  intros H. unfold ozw_debug.
  repeat (apply keeps_bind; [apply _ | | intros ?]);
    try (apply grows_logger_info, H).
  intros w. simpl. reflexivity.
Qed.

End KeepsGrows.

Section Polling.

Variable asctime : nat -> string.
Variable write_points_ok : nat -> bool.

Lemma publish_extends node val :
  label val ∈ labels_to_be_polled →
  keeps (extends published_event) (publish asctime write_points_ok (node, val)).
Proof.
  intros Hl w. rewrite publish_one. split_and!; [done..|].
  eexists. split; [reflexivity|]. repeat constructor. simpl. eauto.
Qed.

Lemma poll_value_extends node_id node val_id :
  keeps (extends published_event)
    (poll_value asctime write_points_ok node_id node val_id).
Proof.
  unfold poll_value.
  apply keeps_bind; [apply _ | apply keeps_network_nodes, _ |]. intros ns.
  apply keeps_bind; [apply _ | apply keeps_getitem, _ |]. intros n.
  apply keeps_bind; [apply _ | apply keeps_getitem, _ |]. intros val.
  case_decide; [by apply publish_extends | apply keeps_ret, _].
Qed.

Lemma poll_node_extends kn :
  keeps (extends published_event) (poll_node asctime write_points_ok kn).
Proof.
  destruct kn as [node_id node]. unfold poll_node.
  destruct (is_sensor node); [|apply keeps_ret, _].
  apply keeps_bind; [apply _ | apply keeps_network_nodes, _ |]. intros ns.
  apply keeps_bind; [apply _ | apply keeps_getitem, _ |]. intros n.
  apply keeps_for_each; [apply _|]. intros val_id. apply poll_value_extends.
Qed.

(** Whatever the network holds and whatever the writes do, a cycle first
    arms the next timer and then appends only events of publishing. *)
Lemma start_polling_arms w :
  ∃ evs,
    trace (start_polling asctime write_points_ok w).2
      = trace w ++ EvTimer TIME_INTERVAL :: evs
    ∧ Forall published_event evs
    ∧ timers (start_polling asctime write_points_ok w).2 = S (timers w)
    ∧ self_network (start_polling asctime write_points_ok w).2 = self_network w.
Proof.
  assert (H : start_polling asctime write_points_ok w
              = for_each (nodes (network w)) (poll_node asctime write_points_ok) (arm w))
    by reflexivity.
  rewrite H.
  destruct (keeps_for_each (extends published_event) (nodes (network w))
              (poll_node asctime write_points_ok) poll_node_extends (arm w))
    as (Hs & Ht & evs & He & HF).
  exists evs. split_and!; [|done|done|done].
  rewrite He. simpl. by rewrite <- app_assoc.
Qed.

Lemma published_whitelisted e : published_event e → whitelisted_event e.
Proof. by destruct e. Qed.

Lemma published_sets_only x e : published_event e → sets_only x e.
Proof. by destruct e. Qed.

Lemma start_polling_grows (P : Event -> Prop) :
  P (EvTimer TIME_INTERVAL) → (∀ e, published_event e → P e) →
  keeps (grows P) (start_polling asctime write_points_ok).
Proof.
  intros HT HP w. destruct (start_polling_arms w) as (evs & He & HF & _).
  eexists. split; [exact He|]. constructor; [done|].
  eapply Forall_impl; eauto.
Qed.

Lemma start_grows (P : Event -> Prop) :
  (∀ fmt args, P (EvLog fmt args)) → P EvNetworkStart → keeps (grows P) start.
Proof.
  intros HL HN. unfold start.
  apply keeps_bind; [apply _ | by apply grows_logger_info | intros _].
  by apply grows_network_start.
Qed.

Lemma stop_grows (P : Event -> Prop) :
  (∀ fmt args, P (EvLog fmt args)) → P (EvSetData 3 CONFIG_NUMBER (NInt 3600)) →
  P EvNetworkStop → keeps (grows P) stop.
Proof.
  intros HL HS HN. unfold stop.
  apply keeps_bind; [apply _ | by apply grows_logger_info | intros _].
  apply keeps_bind; [apply _ | by apply grows_set_value_data | intros _].
  apply keeps_bind; [apply _ | by apply grows_network_stop | intros _].
  by apply grows_logger_info.
Qed.

Lemma signal_network_ready_grows (P : Event -> Prop) r :
  (∀ fmt args, P (EvLog fmt args)) → P (EvSetData 3 CONFIG_NUMBER (NInt 15)) →
  P (EvTimer TIME_INTERVAL) → (∀ e, published_event e → P e) →
  keeps (grows P) (signal_network_ready asctime write_points_ok r).
Proof.
  intros HL HS HT HP. unfold signal_network_ready.
  apply keeps_bind; [apply _ | |intros me].
  { intros w. simpl. reflexivity. }
  case_decide; [apply keeps_ret, _|].
  apply keeps_bind; [apply _ | by apply grows_ozw_debug | intros _].
  apply keeps_bind; [apply _ | by apply grows_logger_info | intros _].
  apply keeps_bind; [apply _ | by apply grows_set_value_data | intros _].
  by apply start_polling_grows.
Qed.

Lemma handle_grows i w :
  grows whitelisted_event w (handle asctime write_points_ok i w).2.
Proof.
  destruct i as [| |r|].
  - by apply (start_grows whitelisted_event).
  - by apply (stop_grows whitelisted_event).
  - apply (signal_network_ready_grows whitelisted_event); try done.
    apply published_whitelisted.
  - unfold handle. destruct (timers w); [reflexivity|].
    etrans; [apply (grows_same_trace _ w (fire_timer w)); done|].
    apply start_polling_grows; [done | apply published_whitelisted].
Qed.

Lemma run_grows inputs w :
  grows whitelisted_event w (run asctime write_points_ok inputs w).
Proof.
  revert w. induction inputs as [|i inputs IH]; intros w; simpl; [reflexivity|].
  etrans; [apply handle_grows | apply IH].
Qed.

(** C2: whatever callbacks run and in whatever order, every write call
    they issue carries one point built from a value whose label is in the
    whitelist; so for a value V whose label is not in the whitelist no
    point of V is ever written, whatever device it is paired with. *)
Theorem only_whitelisted_values_are_written inputs w :
  let evs := drop (length (trace w)) (trace (run asctime write_points_ok inputs w)) in
  Forall (fun ps => ∃ node val now,
                      ps = [value_refresh_point node val now]
                      ∧ label val ∈ labels_to_be_polled
                      ∧ tags (value_refresh_point node val now) !! "label"
                        = Some (PyStr (label val)))
    (writes_of evs)
  ∧ ∀ D V now ps,
      label V ∉ labels_to_be_polled →
      ps ∈ writes_of evs → value_refresh_point D V now ∉ ps.
Proof.
  intros evs.
  destruct (run_grows inputs w) as (evs' & He & HF).
  assert (evs = evs') as ->.
  { unfold evs. rewrite He. by rewrite drop_app_length. }
  assert (HW : Forall (fun ps => ∃ node val now,
                      ps = [value_refresh_point node val now]
                      ∧ label val ∈ labels_to_be_polled) (writes_of evs')).
  { clear He. induction HF as [|e evs' He HF IH]; [constructor|].
    unfold writes_of in *. simpl. destruct e; simpl; try done.
    constructor; done. }
  split.
  - eapply Forall_impl; [exact HW|]. intros ps (node & val & now & -> & Hl).
    exists node, val, now. split_and!; [done..|].
    simpl. unfold point_tags, str. by simplify_map_eq.
  - intros D V now ps HV Hps Hin.
    rewrite Forall_forall in HW. destruct (HW ps Hps) as (node & val & t & -> & Hl).
    apply list_elem_of_singleton in Hin.
    apply (f_equal (fun p => tags p !! "label")) in Hin. simpl in Hin.
    unfold point_tags, str in Hin. simplify_map_eq.
    apply HV. by rewrite Hin.
Qed.

End Polling.

(** ** A write that raises *)

Section Failures.

Variable asctime : nat -> string.
Variable write_points_ok : nat -> bool.

Lemma publish_events_last sel c k :
  sel ≠ [] →
  ∃ ps, last (publish_events asctime write_points_ok sel c k) = Some (EvWritePoints ps).
Proof.
  revert c k. induction sel as [|[node val] sel IH]; intros c k Hne; [done|].
  simpl. destruct (write_points_ok k); [|eauto].
  destruct sel as [|r sel]; [simpl; eauto|].
  destruct (IH (S c) (S k)) as [ps Hps]; [done|].
  exists ps. rewrite <- Hps.
  destruct r as [node' val']. simpl. done.
Qed.

Lemma publish_events_logs sel c k :
  Forall (fun ev => ∀ fmt args, ev = EvLog fmt args →
                      fmt = "Received value refresh %s: %s")
    (publish_events asctime write_points_ok sel c k).
Proof.
  revert c k. induction sel as [|[node val] sel IH]; intros c k; simpl; [constructor|].
  constructor; [by intros ?? [= <- _]|]. constructor; [done|].
  destruct (write_points_ok k); [apply IH | constructor].
Qed.

(** C6 (as amended): a cycle arms the timer of the next cycle before it
    writes anything, so whatever the writes do the next cycle is scheduled
    after TIME_INTERVAL and runs. A write that raises is not caught: the
    cycle ends with that exception, the raising call is the last thing it
    did (nothing is logged about it), and the readings after it are not
    written in this cycle. *)
Theorem raising_write_ends_cycle_only w :
  network_wf (network w) →
  let r := start_polling asctime write_points_ok w in
  let evs := new_events (start_polling asctime write_points_ok) w in
  let sel := whitelisted_readings (nodes (network w)) in
  let n := length (writes_of evs) in
  head evs = Some (EvTimer TIME_INTERVAL)
  ∧ timers r.2 = S (timers w)
  ∧ handle asctime write_points_ok TimerFires r.2
    = start_polling asctime write_points_ok (fire_timer r.2)
  ∧ ∀ e, r.1 = Raise e →
      e = InfluxDBClientError
      ∧ (0 < n ≤ length sel)%nat
      ∧ write_points_ok (write_calls w + pred n) = false
      ∧ writes_of evs = sent asctime (clock_reads w) (take n sel)
      ∧ (∃ ps, last evs = Some (EvWritePoints ps))
      ∧ Forall (fun ev => ∀ fmt args, ev = EvLog fmt args →
                            fmt = "Received value refresh %s: %s") evs.
Proof.
  intros Hwf r evs sel n.
  pose proof (start_polling_spec asctime write_points_ok w Hwf) as Hr.
  pose proof (start_polling_events asctime write_points_ok w Hwf) as He.
  pose proof (start_polling_writes asctime write_points_ok w Hwf) as Hw.
  simpl in Hr, Hw. fold r in Hr. fold evs in He, Hw. fold sel in Hr, He, Hw.
  pose proof (publish_count_le write_points_ok sel (write_calls w)) as Hle.
  assert (Hn : n = publish_count write_points_ok sel (write_calls w)).
  { unfold n. rewrite Hw, sent_length, length_take. lia. }
  split_and!.
  - by rewrite He.
  - by rewrite Hr.
  - unfold handle. by rewrite Hr.
  - intros e Hraise. rewrite Hr in Hraise. simpl in Hraise.
    destruct (publish_result_Raise _ _ _ _ Hraise) as (-> & Hpos & Hf).
    rewrite <- Hn in *. split_and!; [done|done|done|done|done| |].
    + destruct sel as [|r0 sel0] eqn:Hsel; [simpl in Hle; lia|].
      destruct (publish_events_last (r0 :: sel0) (clock_reads w) (write_calls w))
        as [ps Hps]; [done|].
      exists ps. rewrite He, <- Hps. destruct r0. done.
    + rewrite He. constructor; [done | apply publish_events_logs].
Qed.

(** With no write raising, every cycle over a well-formed network writes
    the same points up to their timestamps. *)
Lemma sent_join_untimed c1 c2 sel :
  map untimed (mjoin (sent asctime c1 sel)) = map untimed (mjoin (sent asctime c2 sel)).
Proof.
  revert c1 c2. induction sel as [|[node val] sel IH]; intros c1 c2; [done|].
  simpl. f_equal. apply IH.
Qed.

Lemma cycle_points_untimed w :
  network_wf (network w) →
  (∀ i, write_points_ok i = true) →
  let sel := whitelisted_readings (nodes (network w)) in
  map untimed (mjoin (writes_of (new_events (start_polling asctime write_points_ok) w)))
  = map untimed (mjoin (sent asctime 0 sel))
  ∧ network (start_polling asctime write_points_ok w).2 = network w.
Proof.
  intros Hwf Hok sel. split.
  - rewrite start_polling_writes by done. simpl. fold sel.
    destruct (publish_all_ok write_points_ok sel (write_calls w)) as [-> _]; [done|].
    rewrite firstn_all. apply sent_join_untimed.
  - by rewrite start_polling_spec.
Qed.

Lemma cycles_untimed N w :
  network_wf (network w) →
  (∀ i, write_points_ok i = true) →
  Forall (fun ps => map untimed ps
                    = map untimed (mjoin (sent asctime 0
                                            (whitelisted_readings (nodes (network w))))))
    (cycles asctime write_points_ok N w).
Proof.
  intros Hwf Hok. revert w Hwf. induction N as [|N IH]; intros w Hwf; simpl; [constructor|].
  destruct (cycle_points_untimed w Hwf Hok) as [Hp Hn]. constructor; [done|].
  rewrite <- Hn. apply IH. by rewrite Hn.
Qed.

Lemma cycles_length N w : length (cycles asctime write_points_ok N w) = N.
Proof. revert w. induction N as [|N IH]; intros w; simpl; [done|]. by rewrite IH. Qed.

(** C9 (as amended): N consecutive poll cycles over an unchanged device
    snapshot in which no write raises produce N lists of points that agree
    on measurement, tags and fields, and may differ only in their
    timestamps. *)
Theorem cycles_differ_only_in_time N w :
  network_wf (network w) →
  (∀ i, write_points_ok i = true) →
  length (cycles asctime write_points_ok N w) = N
  ∧ ∀ i j ps qs,
      cycles asctime write_points_ok N w !! i = Some ps →
      cycles asctime write_points_ok N w !! j = Some qs →
      map untimed ps = map untimed qs.
Proof.
  intros Hwf Hok. split; [apply cycles_length|].
  intros i j ps qs Hi Hj.
  pose proof (cycles_untimed N w Hwf Hok) as HF. rewrite Forall_forall in HF.
  rewrite (HF ps), (HF qs); [done| |]; eapply list_elem_of_lookup_2; eauto.
Qed.

End Failures.

Lemma raising_write_ends_cycle_only_witness :
  (start_polling sample_clock first_write_raises sample_world).1
    = Raise InfluxDBClientError
  ∧ timers (start_polling sample_clock first_write_raises sample_world).2 = 1%nat
  ∧ ∃ ps, last (new_events (start_polling sample_clock first_write_raises) sample_world)
          = Some (EvWritePoints ps).
Proof.
  destruct (raising_write_ends_cycle_only sample_clock first_write_raises
              sample_world sample_world_wf) as (_ & Ht & _ & Hr).
  assert (He : (start_polling sample_clock first_write_raises sample_world).1
               = Raise InfluxDBClientError).
  { rewrite start_polling_spec by exact sample_world_wf. reflexivity. }
  destruct (Hr _ He) as (_ & _ & _ & _ & Hl & _).
  split; [exact He|]. split; [exact Ht | exact Hl].
Defined.

(** C6 (as stated) fails: the network holds two readings to publish and
    the first write raises; the cycle raises, the second reading is never
    written, and the raising call is the last event (no log follows it). *)
Lemma raising_write_aborts_cycle :
  whitelisted_readings (nodes (network sample_world))
    = [(multisensor, temperature); (multisensor, humidity)]
  ∧ (start_polling sample_clock first_write_raises sample_world).1
    = Raise InfluxDBClientError
  ∧ writes_of (new_events (start_polling sample_clock first_write_raises) sample_world)
    = [[value_refresh_point multisensor temperature (sample_clock 0)]]
  ∧ last (new_events (start_polling sample_clock first_write_raises) sample_world)
    = Some (EvWritePoints [value_refresh_point multisensor temperature (sample_clock 0)])
  ∧ filter (fun e => is_log e = true)
      (new_events (start_polling sample_clock first_write_raises) sample_world)
    = [EvLog "Received value refresh %s: %s"
         [AStr (id_on_network temperature); AValue temperature]].
Proof.
  split; [exact sample_readings|].
  split.
  { rewrite start_polling_spec by exact sample_world_wf. reflexivity. }
  rewrite start_polling_events by exact sample_world_wf.
  rewrite sample_readings. split_and!; reflexivity.
Qed.

Lemma cycles_differ_only_in_time_witness :
  length (cycles sample_clock always_ok 3 sample_world) = 3%nat
  ∧ ∀ ps qs,
      cycles sample_clock always_ok 3 sample_world !! 0%nat = Some ps →
      cycles sample_clock always_ok 3 sample_world !! 2%nat = Some qs →
      map untimed ps = map untimed qs.
Proof.
  destruct (cycles_differ_only_in_time sample_clock always_ok 3 sample_world
              sample_world_wf (fun i => eq_refl)) as [Hl Hc].
  split; [exact Hl|]. intros ps qs. apply Hc.
Defined.

(** C9 (as stated) fails when a write raises in one cycle and not in
    another: over the same snapshot the first cycle writes one point and the
    second writes two. *)
Lemma cycles_differ_when_a_write_raises :
  ∃ ps qs,
    cycles sample_clock first_write_raises 2 sample_world = [ps; qs]
    ∧ network (start_polling sample_clock first_write_raises sample_world).2
      = network sample_world
    ∧ length ps = 1%nat ∧ length qs = 2%nat
    ∧ map untimed ps ≠ map untimed qs.
Proof.
  eexists _, _. split; [reflexivity|]. split; [reflexivity|].
  split; [reflexivity|]. split; [reflexivity|].
  intros H. apply (f_equal length) in H. vm_compute in H. discriminate H.
Qed.

(** ** The ready notification and stop() *)

Lemma set_value_data_eval node_key val_key x w :
  set_value_data node_key val_key x w =
    match dict_get (nodes (network w)) node_key with
    | None => (Raise (KeyError node_key), w)
    | Some node =>
        match dict_get (values node) val_key with
        | None => (Raise (KeyError val_key), w)
        | Some val =>
            (Ok tt,
             emit (EvSetData node_key val_key x)
               (set_network
                  (network_with_data (network w) node_key val_key node val x) w))
        end
    end.
Proof.
  unfold set_value_data, bind, network_nodes, getitem. simpl.
  destruct (dict_get (nodes (network w)) node_key) as [node|]; simpl; [|done].
  destruct (dict_get (values node) val_key) as [val|]; simpl; done.
Qed.

Lemma config_value_None net :
  config_value net = None →
  dict_get (nodes net) 3 = None
  ∨ ∃ node, dict_get (nodes net) 3 = Some node
            ∧ dict_get (values node) CONFIG_NUMBER = None.
Proof.
  unfold config_value. destruct (dict_get (nodes net) 3) as [node|]; simpl; eauto.
Qed.

Lemma config_value_Some net val :
  config_value net = Some val →
  ∃ node, dict_get (nodes net) 3 = Some node
          ∧ dict_get (values node) CONFIG_NUMBER = Some val.
Proof.
  unfold config_value. destruct (dict_get (nodes net) 3) as [node|]; simpl; [eauto|done].
Qed.

Lemma set_config_raises net :
  config_value net = None →
  ∃ key, (key = 3 ∨ key = CONFIG_NUMBER)
         ∧ ∀ x w, network w = net →
             set_value_data 3 CONFIG_NUMBER x w = (Raise (KeyError key), w).
Proof.
  intros H.
  destruct (config_value_None _ H) as [H3 | (node & H3 & Hc)].
  - exists 3. split; [by left|]. intros x w Hn; subst net.
    by rewrite set_value_data_eval, H3.
  - exists CONFIG_NUMBER. split; [by right|]. intros x w Hn; subst net.
    by rewrite set_value_data_eval, H3, Hc.
Qed.

Lemma set_config_returns x w val :
  config_value (network w) = Some val →
  ∃ node,
    set_value_data 3 CONFIG_NUMBER x w =
      (Ok tt,
       emit (EvSetData 3 CONFIG_NUMBER x)
         (set_network (network_with_data (network w) 3 CONFIG_NUMBER node val x) w)).
Proof.
  intros H. rewrite set_value_data_eval.
  destruct (config_value_Some _ _ H) as (node & -> & ->). eauto.
Qed.

Lemma stop_unfold w :
  stop w =
    (set_value_data 3 CONFIG_NUMBER (NInt 3600) ;; network_stop ;;
     logger_info "Stopped" []) (emit (EvLog "Stopping network..." []) w).
Proof. reflexivity. Qed.

Lemma stop_raises w :
  config_value (network w) = None →
  ∃ key, (key = 3 ∨ key = CONFIG_NUMBER)
         ∧ stop w = (Raise (KeyError key), emit (EvLog "Stopping network..." []) w).
Proof.
  intros H. destruct (set_config_raises _ H) as (key & Hk & Hs).
  exists key. split; [done|]. rewrite stop_unfold.
  by rewrite (bind_Raise _ _ _ _ _ (Hs (NInt 3600) (emit (EvLog "Stopping network..." []) w) eq_refl)).
Qed.

Lemma stop_returns w val :
  config_value (network w) = Some val →
  (stop w).1 = Ok tt
  ∧ is_started (network (stop w).2) = false
  ∧ timers (stop w).2 = timers w
  ∧ new_events stop w =
      [EvLog "Stopping network..." []; EvSetData 3 CONFIG_NUMBER (NInt 3600);
       EvNetworkStop; EvLog "Stopped" []]
  ∧ nodes (network (stop w).2) = [].
Proof.
  intros H. rewrite stop_unfold.
  destruct (set_config_returns (NInt 3600) (emit (EvLog "Stopping network..." []) w) val H)
    as (node & Hs).
  rewrite (bind_Ok _ _ _ _ _ Hs). split_and!; [done..| |done].
  apply new_events_app. rewrite stop_unfold, (bind_Ok _ _ _ _ _ Hs). simpl.
  by rewrite <- !app_assoc.
Qed.

Section Ready.

Variable asctime : nat -> string.
Variable write_points_ok : nat -> bool.

Lemma signal_network_ready_other r w :
  r ≠ self_network w →
  signal_network_ready asctime write_points_ok r w = (Ok tt, w).
Proof.
  intros Hr. unfold signal_network_ready, bind. simpl.
  by rewrite decide_True by congruence.
Qed.

Lemma ozw_debug_eval w :
  ozw_debug w = (Ok tt, append (ozw_debug_logs (network w)) w).
Proof.
  cbv [ozw_debug bind logger_info emit append ozw_debug_logs
       network trace self_network timers clock_reads write_calls].
  do 2 f_equal. by rewrite <- !app_assoc.
Qed.

Lemma signal_network_ready_own w :
  signal_network_ready asctime write_points_ok (self_network w) w =
    (set_value_data 3 CONFIG_NUMBER (NInt 15) ;;
     start_polling asctime write_points_ok) (append (ready_logs (network w)) w).
Proof.
  unfold signal_network_ready. unfold bind at 1. simpl.
  rewrite decide_False by (intros H; by apply H).
  rewrite (bind_Ok _ _ _ _ _ (ozw_debug_eval w)).
  unfold bind at 1, logger_info at 1.
  replace (emit (EvLog "Network is ready!" []) (append (ozw_debug_logs (network w)) w))
    with (append (ready_logs (network w)) w); [done|].
  unfold emit, append, ready_logs.
  cbn [trace network self_network timers clock_reads write_calls].
  f_equal. by rewrite app_assoc.
Qed.

Lemma signal_network_ready_raises w :
  config_value (network w) = None →
  ∃ key, (key = 3 ∨ key = CONFIG_NUMBER)
         ∧ signal_network_ready asctime write_points_ok (self_network w) w
           = (Raise (KeyError key), append (ready_logs (network w)) w)
         ∧ stop w = (Raise (KeyError key), emit (EvLog "Stopping network..." []) w).
Proof.
  intros H. destruct (set_config_raises _ H) as (key & Hk & Hs).
  exists key. split_and!; [done| |].
  - rewrite signal_network_ready_own.
    by rewrite (bind_Raise _ _ _ _ _ (Hs (NInt 15) (append (ready_logs (network w)) w) eq_refl)).
  - rewrite stop_unfold.
    by rewrite (bind_Raise _ _ _ _ _ (Hs (NInt 3600) (emit (EvLog "Stopping network..." []) w) eq_refl)).
Qed.

Lemma signal_network_ready_returns w val :
  config_value (network w) = Some val →
  ∃ evs,
    new_events (signal_network_ready asctime write_points_ok (self_network w)) w
      = ready_logs (network w)
        ++ EvSetData 3 CONFIG_NUMBER (NInt 15) :: EvTimer TIME_INTERVAL :: evs
    ∧ Forall published_event evs
    ∧ timers (signal_network_ready asctime write_points_ok (self_network w) w).2
      = S (timers w).
Proof.
  intros H.
  destruct (set_config_returns (NInt 15) (append (ready_logs (network w)) w) val H)
    as (node & Hs).
  pose proof (signal_network_ready_own w) as Hrun.
  rewrite (bind_Ok _ _ _ _ _ Hs) in Hrun.
  destruct (start_polling_arms asctime write_points_ok
              (emit (EvSetData 3 CONFIG_NUMBER (NInt 15))
                 (set_network
                    (network_with_data (network (append (ready_logs (network w)) w))
                       3 CONFIG_NUMBER node val (NInt 15))
                    (append (ready_logs (network w)) w))))
    as (evs & He & HF & Ht & _).
  rewrite <- Hrun in He, Ht.
  exists evs. split_and!; [|done|exact Ht].
  apply new_events_app. rewrite He.
  cbn [emit append set_network trace]. by rewrite <- !app_assoc.
Qed.

End Ready.

Section Callbacks.

Variable asctime : nat -> string.
Variable write_points_ok : nat -> bool.

(** C7: a "network ready" notification that carries another network
    object than the one the publisher holds leaves the world as it was and
    returns: nothing is logged, no configuration value is written, no timer
    is armed and no cycle runs. Whenever the callback does anything at all,
    the notification carried the publisher's own network; and on the own
    network, with node 3 and its configuration value present, it writes the
    poll rate and starts cycling. *)
Theorem foreign_ready_notification_is_ignored (r : ref) w :
  (r ≠ self_network w →
   signal_network_ready asctime write_points_ok r w = (Ok tt, w))
  ∧ (new_events (signal_network_ready asctime write_points_ok r) w ≠ [] →
     r = self_network w)
  ∧ (r = self_network w → is_Some (config_value (network w)) →
     EvSetData 3 CONFIG_NUMBER (NInt 15)
       ∈ new_events (signal_network_ready asctime write_points_ok r) w
     ∧ EvTimer TIME_INTERVAL
       ∈ new_events (signal_network_ready asctime write_points_ok r) w
     ∧ timers (signal_network_ready asctime write_points_ok r w).2 = S (timers w)).
Proof.
  split_and!.
  - apply signal_network_ready_other.
  - intros Hev. destruct (decide (r = self_network w)) as [|Hne]; [done|].
    exfalso. apply Hev. unfold new_events.
    rewrite signal_network_ready_other by done. simpl. by rewrite drop_all.
  - intros -> [val Hval].
    destruct (signal_network_ready_returns asctime write_points_ok w val Hval)
      as (evs & -> & _ & Ht).
    split_and!; [| |done].
    + apply elem_of_app. right. left.
    + apply elem_of_app. right. right. left.
Qed.

(** C10: the only configuration writes of the ready callback and of stop()
    are to node 3, key CONFIG_NUMBER, with 15 and 3600; both are issued when
    node 3 holds that key. When node 3 or that key is absent, the ready
    callback raises KeyError after its log lines, with no timer armed and
    nothing written, and stop() raises KeyError after its first log line,
    with the network not stopped. *)
Theorem poll_rate_writes_target_node_3 w :
  let ready := signal_network_ready asctime write_points_ok (self_network w) in
  Forall (sets_only (NInt 15)) (new_events ready w)
  ∧ Forall (sets_only (NInt 3600)) (new_events stop w)
  ∧ (is_Some (config_value (network w)) →
     EvSetData 3 CONFIG_NUMBER (NInt 15) ∈ new_events ready w
     ∧ EvSetData 3 CONFIG_NUMBER (NInt 3600) ∈ new_events stop w)
  ∧ (config_value (network w) = None →
     ∃ key, (key = 3 ∨ key = CONFIG_NUMBER)
       ∧ (ready w).1 = Raise (KeyError key)
       ∧ timers (ready w).2 = timers w
       ∧ network (ready w).2 = network w
       ∧ new_events ready w = ready_logs (network w)
       ∧ (stop w).1 = Raise (KeyError key)
       ∧ network (stop w).2 = network w
       ∧ new_events stop w = [EvLog "Stopping network..." []]).
Proof.
  intros ready. split_and!.
  - destruct (signal_network_ready_grows asctime write_points_ok (sets_only (NInt 15))
                (self_network w)) with (w := w) as (evs & He & HF); try done.
    { intros e. apply published_sets_only. }
    unfold ready. by rewrite (new_events_app _ _ _ He).
  - destruct (stop_grows (sets_only (NInt 3600))) with (w := w) as (evs & He & HF);
      try done.
    by rewrite (new_events_app _ _ _ He).
  - intros [val Hval]. split.
    + destruct (signal_network_ready_returns asctime write_points_ok w val Hval)
        as (evs & He & _). unfold ready. rewrite He.
      apply elem_of_app. right. left.
    + destruct (stop_returns w val Hval) as (_ & _ & _ & -> & _).
      right. left.
  - intros Hnone.
    destruct (signal_network_ready_raises asctime write_points_ok w Hnone)
      as (key & Hk & Hr & Hs).
    exists key. unfold ready. rewrite Hr, Hs. split_and!; try done.
    + apply new_events_app. by rewrite Hr.
    + apply new_events_app. by rewrite Hs.
Qed.

End Callbacks.

Lemma sample_config : config_value (network sample_world) = Some group1_interval.
Proof. reflexivity. Qed.

Lemma foreign_ready_notification_is_ignored_witness :
  signal_network_ready sample_clock always_ok 7%nat sample_world = (Ok tt, sample_world)
  ∧ EvTimer TIME_INTERVAL
    ∈ new_events (signal_network_ready sample_clock always_ok 0%nat) sample_world.
Proof.
  split.
  - apply (foreign_ready_notification_is_ignored sample_clock always_ok 7%nat sample_world).
    discriminate.
  - apply (foreign_ready_notification_is_ignored sample_clock always_ok 0%nat sample_world).
    + reflexivity.
    + exists group1_interval. exact sample_config.
Defined.

Lemma poll_rate_writes_target_node_3_witness :
  ∃ key, (key = 3 ∨ key = CONFIG_NUMBER)
    ∧ (signal_network_ready sample_clock always_ok 0%nat scenario_world).1
      = Raise (KeyError key)
    ∧ (stop scenario_world).1 = Raise (KeyError key)
    ∧ is_started (network (stop scenario_world).2) = true.
Proof.
  destruct (poll_rate_writes_target_node_3 sample_clock always_ok scenario_world)
    as (_ & _ & _ & H).
  destruct (H eq_refl) as (key & Hk & Hr & _ & _ & _ & Hs & Hn & _).
  exists key. split; [exact Hk|]. split; [exact Hr|]. split; [exact Hs|].
  rewrite Hn. reflexivity.
Defined.

(** stop() in any state, so also before start(): it raises KeyError,
    having logged its first line only, when node 3 or its CONFIG_NUMBER
    value is absent from the node table, and returns with the network
    stopped when they are present. Its only configuration write is 3600 to
    node 3, key CONFIG_NUMBER: it never writes the poll rate 15 of the ready
    callback. *)
Theorem stop_without_start w :
  (config_value (network w) = None →
   ∃ key, (key = 3 ∨ key = CONFIG_NUMBER)
     ∧ stop w = (Raise (KeyError key), emit (EvLog "Stopping network..." []) w))
  ∧ (is_Some (config_value (network w)) →
     (stop w).1 = Ok tt ∧ is_started (network (stop w).2) = false)
  ∧ Forall (sets_only (NInt 3600)) (new_events stop w)
  ∧ (∀ node_key val_key, EvSetData node_key val_key (NInt 15) ∉ new_events stop w).
Proof.
  assert (HF : Forall (sets_only (NInt 3600)) (new_events stop w)).
  { destruct (stop_grows (sets_only (NInt 3600))) with (w := w) as (evs & He & HF);
      try done.
    by rewrite (new_events_app _ _ _ He). }
  split_and!.
  - apply stop_raises.
  - intros [val Hval]. destruct (stop_returns w val Hval) as (H1 & H2 & _). done.
  - exact HF.
  - intros node_key val_key Hin. rewrite Forall_forall in HF.
    destruct (HF _ Hin) as (_ & _ & [=]).
Qed.

Lemma stop_without_start_witness :
  (stop sample_world).1 = Ok tt
  ∧ is_started (network (stop sample_world).2) = false
  ∧ ∃ key, stop fresh_world
           = (Raise (KeyError key), emit (EvLog "Stopping network..." []) fresh_world).
Proof.
  destruct (stop_without_start sample_world) as (_ & Hs & _ & _).
  destruct (Hs (ex_intro _ group1_interval sample_config)) as [H1 H2].
  destruct (stop_without_start fresh_world) as (Hf & _ & _ & _).
  destruct (Hf eq_refl) as (key & _ & Hk).
  split; [exact H1|]. split; [exact H2|]. exists key. exact Hk.
Defined.

(** C3 on the code: on a network on which start() has not run and which
    knows no node, stop() raises KeyError for node 3 after its first log
    line, before [network.stop()]: it crashes and stops nothing. It writes
    no poll rate. *)
Lemma stop_on_fresh_network_raises :
  is_started (network fresh_world) = false
  ∧ trace fresh_world = []
  ∧ stop fresh_world
    = (Raise (KeyError 3), emit (EvLog "Stopping network..." []) fresh_world)
  ∧ new_events stop fresh_world = [EvLog "Stopping network..." []].
Proof. split_and!; reflexivity. Qed.

(** ** Timers after stop() *)

Lemma stop_keeps_timers w : timers (stop w).2 = timers w.
Proof.
  destruct (config_value (network w)) as [val|] eqn:Hc.
  - by destruct (stop_returns w val Hc) as (_ & _ & Ht & _).
  - destruct (stop_raises w Hc) as (key & _ & ->). done.
Qed.

Lemma timer_fires_rearms asctime ok w :
  (0 < timers w)%nat →
  timers (handle asctime ok TimerFires w).2 = timers w
  ∧ head (new_events (handle asctime ok TimerFires) w) = Some (EvTimer TIME_INTERVAL).
Proof.
  intros Hpos. unfold new_events, handle.
  destruct (timers w) as [|n] eqn:Hn; [lia|].
  destruct (start_polling_arms asctime ok (fire_timer w)) as (evs & He & _ & Ht & _).
  rewrite Ht, He. simpl. rewrite Hn. split; [done|].
  by rewrite drop_app_length.
Qed.

Lemma signal_network_ready_timers asctime ok r w :
  (timers w ≤ timers (signal_network_ready asctime ok r w).2)%nat.
Proof.
  destruct (decide (r = self_network w)) as [->|Hne].
  - destruct (config_value (network w)) as [val|] eqn:Hc.
    + destruct (signal_network_ready_returns asctime ok w val Hc) as (_ & _ & _ & ->).
      lia.
    + destruct (signal_network_ready_raises asctime ok w Hc) as (key & _ & -> & _).
      simpl. lia.
  - by rewrite signal_network_ready_other.
Qed.

(** Once a timer is pending one stays pending, whatever callbacks follow:
    nothing cancels a timer, and the cycle a timer runs arms the next one. *)
Lemma pending_timer_survives asctime ok inputs w :
  (0 < timers w)%nat → (0 < timers (run asctime ok inputs w))%nat.
Proof.
  revert w. induction inputs as [|i inputs IH]; intros w Hpos; [done|].
  simpl. apply IH. destruct i as [| |r|].
  - done.
  - simpl. unfold stop_signal. by rewrite stop_keeps_timers.
  - pose proof (signal_network_ready_timers asctime ok r w). simpl. lia.
  - destruct (timer_fires_rearms asctime ok w Hpos) as [-> _]. done.
Qed.

(** C4 on the code: the ready notification starts cycling, stop() is
    called, and the timer that was pending expires. The cycle it runs arms a
    timer again, after the network was stopped, and a timer stays pending. *)
Lemma timer_rearmed_after_stop :
  let w := run sample_clock always_ok [NetworkReady 0%nat; Sigint; TimerFires]
             sample_world in
  ∃ before after,
    trace w = before ++ EvNetworkStop :: EvLog "Stopped" [] :: EvTimer TIME_INTERVAL :: after
    ∧ is_started (network w) = false
    ∧ timers w = 1%nat.
Proof.
  intros w.
  exists (take 18 (trace w)), (drop 21 (trace w)).
  split_and!; vm_compute; reflexivity.
Qed.

Lemma group1_interval_not_polled : label group1_interval ∉ labels_to_be_polled.
Proof. vm_compute. discriminate. Qed.

Lemma only_whitelisted_values_are_written_witness :
  Forall (fun ps => value_refresh_point multisensor group1_interval (sample_clock 0) ∉ ps)
    (writes_of
       (drop (length (trace sample_world))
          (trace (run sample_clock always_ok [NetworkReady 0%nat; TimerFires]
                    sample_world)))).
Proof.
  destruct (only_whitelisted_values_are_written sample_clock always_ok
              [NetworkReady 0%nat; TimerFires] sample_world) as [_ H].
  apply Forall_forall. intros ps.
  exact (H multisensor group1_interval (sample_clock 0) ps group1_interval_not_polled).
Defined.

(** * Further properties of the program *)

(** ** Outcome of a cycle *)

Lemma publish_result_Ok_iff (ok : nat -> bool) sel k :
  publish_result ok sel k = Ok tt
  ↔ ∀ i, (i < length sel)%nat → ok (k + i)%nat = true.
Proof.
  split; [|apply publish_all_ok].
  revert k. induction sel as [|r sel IH]; intros k; simpl; [intros _ i; lia|].
  destruct (ok k) eqn:Hk; [|done]. intros H [|i] Hi.
  - by rewrite Nat.add_0_r.
  - replace (k + S i)%nat with (S k + i)%nat by lia. apply (IH _ H). lia.
Qed.

Lemma publish_result_cases (ok : nat -> bool) sel k :
  publish_result ok sel k = Ok tt
  ∨ publish_result ok sel k = Raise InfluxDBClientError.
Proof.
  revert k. induction sel as [|r sel IH]; intros k; simpl; [by left|].
  destruct (ok k); [apply IH | by right].
Qed.

(** X1: over a well-formed network a cycle returns normally exactly when
    every write call it issues for the selected readings returns; otherwise
    it ends with the exception of the client. The subscripts of the loops
    never raise KeyError. *)
Theorem cycle_returns_iff_writes_return asctime ok w :
  network_wf (network w) →
  ((start_polling asctime ok w).1 = Ok tt
   ↔ ∀ i, (i < length (whitelisted_readings (nodes (network w))))%nat →
          ok (write_calls w + i)%nat = true)
  ∧ ∀ e, (start_polling asctime ok w).1 = Raise e → e = InfluxDBClientError.
Proof.
  intros Hwf. rewrite start_polling_spec by done. simpl. split.
  - apply publish_result_Ok_iff.
  - intros e He.
    destruct (publish_result_cases ok (whitelisted_readings (nodes (network w)))
                (write_calls w)) as [H|H]; congruence.
Qed.

Lemma cycle_returns_iff_writes_return_witness :
  (start_polling sample_clock always_ok sample_world).1 = Ok tt.
Proof.
  apply (cycle_returns_iff_writes_return sample_clock always_ok sample_world
           sample_world_wf).
  intros i _. reflexivity.
Defined.

Lemma whitelisted_readings_nil (ns : dict ZWaveNode) :
  (∀ k node j val, (k, node) ∈ ns → is_sensor node = true →
                   (j, val) ∈ values node → label val ∉ labels_to_be_polled) →
  whitelisted_readings ns = [].
Proof.
  induction ns as [|[k node] ns IH]; intros H; [done|].
  unfold whitelisted_readings. rewrite bind_cons. cbn [snd].
  fold (whitelisted_readings ns). rewrite IH.
  - rewrite app_nil_r. destruct (is_sensor node) eqn:Hs.
    + apply node_readings_nil. intros j val. apply (H k node); [left | done].
    + unfold node_readings. by rewrite Hs.
  - intros k' node' j val Hin. apply (H k' node'). by right.
Qed.

(** X2: when no value of a node classified as a sensor carries a
    whitelisted label (so also on an empty node table), a cycle arms the
    next timer and does nothing else: no clock read, no log line, no write,
    and it returns normally whatever the client would answer. *)
Theorem cycle_without_readings asctime ok w :
  network_wf (network w) →
  (∀ k node j val, (k, node) ∈ nodes (network w) → is_sensor node = true →
                   (j, val) ∈ values node → label val ∉ labels_to_be_polled) →
  start_polling asctime ok w = (Ok tt, arm w).
Proof.
  intros Hwf H. rewrite start_polling_spec by done. simpl.
  rewrite (whitelisted_readings_nil _ H). simpl. by rewrite advance_0.
Qed.

Lemma power_meter_world_wf :
  network_wf (network (world_of (network_of true [(4, power_meter)]))).
Proof.
  split; [|repeat constructor]; simpl; unfold dict_wf, keys; simpl;
    by apply (bool_decide_unpack _).
Qed.

Lemma power_not_polled : label power ∉ labels_to_be_polled.
Proof. vm_compute. discriminate. Qed.

Lemma cycle_without_readings_witness :
  start_polling sample_clock first_write_raises
    (world_of (network_of true [(4, power_meter)]))
  = (Ok tt, arm (world_of (network_of true [(4, power_meter)]))).
Proof.
  apply (cycle_without_readings sample_clock first_write_raises
           (world_of (network_of true [(4, power_meter)])) power_meter_world_wf).
  intros k node j val Hn _ Hv.
  apply list_elem_of_singleton in Hn. injection Hn as _ ->.
  apply list_elem_of_singleton in Hv. injection Hv as _ ->.
  exact power_not_polled.
Defined.

(** ** Log lines and write calls of a cycle *)

Global Instance refreshes_preorder : PreOrder refreshes.
Proof.
  split.
  - intros w. exists []. simpl. by rewrite app_nil_r.
  - intros w1 w2 w3 [l1 H1] [l2 H2]. exists (l1 ++ l2).
    by rewrite H2, H1, bind_app, app_assoc.
Qed.

Lemma publish_refreshes asctime ok r : keeps refreshes (publish asctime ok r).
Proof.
  destruct r as [node val]. intros w. rewrite publish_one.
  exists [(node, val, asctime (clock_reads w))]. simpl. done.
Qed.

Lemma poll_node_refreshes asctime ok kn : keeps refreshes (poll_node asctime ok kn).
Proof.
  destruct kn as [node_id node]. unfold poll_node.
  destruct (is_sensor node); [|apply keeps_ret, _].
  apply keeps_bind; [apply _ | apply keeps_network_nodes, _ |]. intros ns.
  apply keeps_bind; [apply _ | apply keeps_getitem, _ |]. intros n.
  apply keeps_for_each; [apply _|]. intros val_id. unfold poll_value.
  apply keeps_bind; [apply _ | apply keeps_network_nodes, _ |]. intros ns'.
  apply keeps_bind; [apply _ | apply keeps_getitem, _ |]. intros n'.
  apply keeps_bind; [apply _ | apply keeps_getitem, _ |]. intros val.
  case_decide; [apply publish_refreshes | apply keeps_ret, _].
Qed.

(** X9: whatever the node table and the client do, the events of a cycle
    are the arming of the next timer followed by pairs of a "Received value
    refresh" log line and the write call of one point of the value just
    logged: every write is announced by its log line, and nothing else is
    logged or done. *)
Theorem cycle_events_are_refresh_pairs asctime ok w :
  ∃ l : list (ZWaveNode * ZWaveValue * string),
    new_events (start_polling asctime ok) w
    = EvTimer TIME_INTERVAL :: (l ≫= refresh_events).
Proof.
  destruct (keeps_for_each refreshes (nodes (network w)) (poll_node asctime ok)
              (poll_node_refreshes asctime ok) (arm w)) as [l Hl].
  exists l. apply new_events_app.
  change (start_polling asctime ok w)
    with (for_each (nodes (network w)) (poll_node asctime ok) (arm w)).
  rewrite Hl. simpl. by rewrite <- app_assoc.
Qed.

(** ** Tags of a point *)

(** X10: the tags of two points are equal exactly when the readings agree
    on the seven identifying fields; the datum, the unit and the time of
    the reading play no part in the tags. *)
Theorem tags_identify_reading n1 v1 n2 v2 :
  point_tags n1 v1 = point_tags n2 v2
  ↔ id_on_network v1 = id_on_network v2
    ∧ home_id n1 = home_id n2
    ∧ node_id n1 = node_id n2
    ∧ value_id v1 = value_id v2
    ∧ manufacturer_id n1 = manufacturer_id n2
    ∧ product_id n1 = product_id n2
    ∧ label v1 = label v2.
Proof.
  split.
  - intros H.
    pose proof (f_equal (fun m => m !! "id_on_network") H) as H1.
    pose proof (f_equal (fun m => m !! "home_id") H) as H2.
    pose proof (f_equal (fun m => m !! "node_id") H) as H3.
    pose proof (f_equal (fun m => m !! "value_id") H) as H4.
    pose proof (f_equal (fun m => m !! "manufacturer_id") H) as H5.
    pose proof (f_equal (fun m => m !! "product_id") H) as H6.
    pose proof (f_equal (fun m => m !! "label") H) as H7.
    clear H. unfold point_tags, str in *. simpl in *.
    simplify_map_eq. done.
  - intros (H1 & H2 & H3 & H4 & H5 & H6 & H7). unfold point_tags.
    by rewrite H1, H2, H3, H4, H5, H6, H7.
Qed.

(** ** What the callbacks leave of the node table *)

Section DictSet.

Context {V : Type}.
Implicit Types (d : dict V) (k : Z) (v : V).

Lemma dict_get_set_eq d k v v0 :
  dict_get d k = Some v0 → dict_get (dict_set d k v) k = Some v.
Proof.
  induction d as [|[k' v'] d IH]; simpl; [done|].
  case_decide as Hk; simpl.
  - intros _. by rewrite decide_True.
  - intros H. rewrite decide_False by done. auto.
Qed.

Lemma dict_set_Forall2 (R : Z * V -> Z * V -> Prop) d k v v0 :
  (∀ kv, R kv kv) →
  dict_get d k = Some v0 →
  R (k, v0) (k, v) →
  Forall2 R d (dict_set d k v).
Proof.
  intros Hrefl. induction d as [|[k' v'] d IH]; simpl; [done|].
  case_decide as Hk.
  - intros [= ->] HR. subst k'. constructor; [done|].
    clear IH. induction d; constructor; auto.
  - intros H HR. constructor; auto.
Qed.

End DictSet.

Lemma with_data_id val : with_data val (data val) = val.
Proof. by destruct val. Qed.

Lemma same_value_refl node_key kv : same_value node_key kv kv.
Proof. split; [done | by left]. Qed.

Lemma same_value_trans node_key kv1 kv2 kv3 :
  same_value node_key kv1 kv2 → same_value node_key kv2 kv3 →
  same_value node_key kv1 kv3.
Proof.
  intros [Hk1 H1] [Hk2 H2]. split; [congruence|].
  destruct H1 as [H1 | (Hn & Hc & x & H1)]; destruct H2 as [H2 | (Hn' & Hc' & y & H2)].
  - left. congruence.
  - right. split_and!; [done | congruence | exists y; by rewrite H2, H1].
  - right. split_and!; [done | done | exists x; congruence].
  - right. split_and!; [done | done | exists y; by rewrite H2, H1].
Qed.

Lemma same_node_refl kn : same_node kn kn.
Proof.
  split_and!; [done | done |].
  induction (values kn.2); constructor; [apply same_value_refl | done].
Qed.

Lemma same_node_trans kn1 kn2 kn3 :
  same_node kn1 kn2 → same_node kn2 kn3 → same_node kn1 kn3.
Proof.
  intros (Hk1 & Hi1 & H1) (Hk2 & Hi2 & H2). split_and!; [congruence | congruence |].
  rewrite <- Hk1 in H2.
  eapply Forall2_trans; [|exact H1|exact H2].
  intros ???. apply same_value_trans.
Qed.

Global Instance same_table_preorder : PreOrder same_table.
Proof.
  split.
  - intros ns. unfold same_table. induction ns; constructor; [apply same_node_refl | done].
  - intros ns1 ns2 ns3 H1 H2. unfold same_table in *.
    eapply Forall2_trans; [|exact H1|exact H2].
    intros ???. apply same_node_trans.
Qed.

Global Instance same_shape_preorder : PreOrder same_shape.
Proof.
  split.
  - intros w. split; [done | reflexivity].
  - intros w1 w2 w3 [Hs1 H1] [Hs2 H2]. split; [congruence | by etrans].
Qed.

Global Instance same_network_preorder : PreOrder same_network.
Proof.
  split; [by intros w | intros w1 w2 w3; unfold same_network; congruence].
Qed.

Lemma same_shape_nodes w w' :
  self_network w' = self_network w →
  nodes (network w') = nodes (network w) →
  same_shape w w'.
Proof. intros Hs Hn. split; [done|]. rewrite Hn. reflexivity. Qed.

(** The table after [nodes[3].values[CONFIG_NUMBER].data = x]. *)
Lemma same_table_with_data net node val x :
  dict_get (nodes net) 3 = Some node →
  dict_get (values node) CONFIG_NUMBER = Some val →
  same_table (nodes net) (nodes (network_with_data net 3 CONFIG_NUMBER node val x)).
Proof.
  intros Hn Hv. unfold network_with_data. simpl.
  apply (dict_set_Forall2 same_node _ _ _ node); [apply same_node_refl | done |].
  split_and!; [done | done |]. simpl.
  apply (dict_set_Forall2 (same_value 3) _ _ _ val); [apply same_value_refl | done |].
  split; [done|]. right. split_and!; [done | done |]. by exists x.
Qed.

Lemma config_value_with_data net node val x :
  dict_get (nodes net) 3 = Some node →
  dict_get (values node) CONFIG_NUMBER = Some val →
  config_value (network_with_data net 3 CONFIG_NUMBER node val x)
  = Some (with_data val x).
Proof.
  intros Hn Hv. unfold config_value, network_with_data. simpl.
  rewrite (dict_get_set_eq _ _ _ _ Hn). simpl.
  by rewrite (dict_get_set_eq _ _ _ _ Hv).
Qed.

Lemma same_values_keys node_key vs vs' :
  Forall2 (same_value node_key) vs vs' → keys vs = keys vs'.
Proof.
  unfold keys. induction 1 as [|kv kv' vs vs' [Hk _] _ IH]; [done|].
  rewrite !fmap_cons. by rewrite Hk, IH.
Qed.

Lemma same_values_lookup node_key vs vs' j :
  Forall2 (same_value node_key) vs vs' →
  match dict_get vs j, dict_get vs' j with
  | Some v, Some v' =>
      v' = v ∨ (node_key = 3 ∧ j = CONFIG_NUMBER ∧ ∃ x, v' = with_data v x)
  | None, None => True
  | _, _ => False
  end.
Proof.
  induction 1 as [|[k v] [k' v'] vs vs' [Hk H] _ IH]; simpl; [done|].
  simpl in Hk. subst k'. case_decide as Hj; [|exact IH].
  subst k. simpl in H. destruct H as [H | (H3 & Hc & x & H)]; [by left|].
  right. split_and!; [done | done | by exists x].
Qed.

Lemma same_table_keys ns ns' : same_table ns ns' → keys ns = keys ns'.
Proof.
  unfold keys. induction 1 as [|kn kn' ns ns' [Hk _] _ IH]; [done|].
  rewrite !fmap_cons. by rewrite Hk, IH.
Qed.

Lemma same_table_lookup ns ns' k :
  same_table ns ns' →
  match dict_get ns k, dict_get ns' k with
  | Some n, Some n' => same_node (k, n) (k, n')
  | None, None => True
  | _, _ => False
  end.
Proof.
  induction 1 as [|[k0 n] [k0' n'] ns ns' H _ IH]; simpl; [done|].
  pose proof H as (Hk & _ & _). simpl in Hk. subst k0'.
  case_decide as Hj; [|exact IH]. by subst k0.
Qed.

Lemma same_table_wf ns ns' :
  same_table ns ns' →
  dict_wf ns ∧ Forall (fun kn => dict_wf (values kn.2)) ns →
  dict_wf ns' ∧ Forall (fun kn => dict_wf (values kn.2)) ns'.
Proof.
  intros H [H1 H2]. split.
  - unfold dict_wf. by rewrite <- (same_table_keys _ _ H).
  - clear H1. induction H as [|kn kn' ns ns' (_ & _ & Hv) _ IH]; [done|].
    apply Forall_cons in H2 as [Hkn H2]. constructor; [|by apply IH].
    unfold dict_wf in *. by rewrite <- (same_values_keys _ _ _ Hv).
Qed.

Lemma set_config_returns_full x w val :
  config_value (network w) = Some val →
  ∃ node,
    dict_get (nodes (network w)) 3 = Some node
    ∧ dict_get (values node) CONFIG_NUMBER = Some val
    ∧ set_value_data 3 CONFIG_NUMBER x w =
        (Ok tt,
         emit (EvSetData 3 CONFIG_NUMBER x)
           (set_network (network_with_data (network w) 3 CONFIG_NUMBER node val x) w)).
Proof.
  intros H. destruct (config_value_Some _ _ H) as (node & Hn & Hv).
  exists node. split_and!; [done | done |].
  by rewrite set_value_data_eval, Hn, Hv.
Qed.

Lemma is_sensor_identity n n' :
  node_identity n' = node_identity n → is_sensor n' = is_sensor n.
Proof.
  unfold node_identity, is_sensor. intros [= H1 H2 _ _ _ _]. by rewrite H1, H2.
Qed.

Section RunInvariants.

Variable asctime : nat -> string.
Variable write_points_ok : nat -> bool.

Lemma poll_node_keeps (R : relation World) `{!PreOrder R} :
  (∀ r, keeps R (publish asctime write_points_ok r)) →
  ∀ kn, keeps R (poll_node asctime write_points_ok kn).
Proof.
  intros Hp [node_id node]. unfold poll_node.
  destruct (is_sensor node); [|apply keeps_ret, _].
  apply keeps_bind; [apply _ | apply keeps_network_nodes, _ |]. intros ns.
  apply keeps_bind; [apply _ | apply keeps_getitem, _ |]. intros n.
  apply keeps_for_each; [apply _|]. intros val_id. unfold poll_value.
  apply keeps_bind; [apply _ | apply keeps_network_nodes, _ |]. intros ns'.
  apply keeps_bind; [apply _ | apply keeps_getitem, _ |]. intros n'.
  apply keeps_bind; [apply _ | apply keeps_getitem, _ |]. intros val.
  case_decide; [apply Hp | apply keeps_ret, _].
Qed.

Lemma start_polling_same_network w :
  network (start_polling asctime write_points_ok w).2 = network w.
Proof.
  change (start_polling asctime write_points_ok w)
    with (for_each (nodes (network w)) (poll_node asctime write_points_ok) (arm w)).
  assert (Hb : ∀ kn, keeps same_network (poll_node asctime write_points_ok kn)).
  { apply poll_node_keeps; [apply _|].
    intros [node val] w'. by rewrite publish_one. }
  exact (keeps_for_each same_network (nodes (network w)) _ Hb (arm w)).
Qed.

Lemma start_polling_same_shape : keeps same_shape (start_polling asctime write_points_ok).
Proof.
  intros w. apply same_shape_nodes.
  - by destruct (start_polling_arms asctime write_points_ok w) as (_ & _ & _ & _ & ->).
  - by rewrite start_polling_same_network.
Qed.

Lemma logger_info_same_shape fmt args : keeps same_shape (logger_info fmt args).
Proof. intros w. by apply same_shape_nodes. Qed.

Lemma set_config_same_shape x : keeps same_shape (set_value_data 3 CONFIG_NUMBER x).
Proof.
  intros w. rewrite set_value_data_eval.
  destruct (dict_get (nodes (network w)) 3) as [node|] eqn:Hn; [|reflexivity].
  destruct (dict_get (values node) CONFIG_NUMBER) as [val|] eqn:Hv; [|reflexivity].
  split; [done|]. by apply same_table_with_data.
Qed.

Global Instance shape_or_empty_preorder : PreOrder shape_or_empty.
Proof.
  split.
  - intros w. split; [done|]. right. reflexivity.
  - intros w1 w2 w3 [Hs1 H1] [Hs2 H2]. split; [congruence|].
    destruct H2 as [H2|H2]; [by left|].
    destruct H1 as [H1|H1].
    + left. rewrite H1 in H2. by apply Forall2_nil_inv_l in H2.
    + right. by etrans.
Qed.

Lemma keeps_shape_or_empty {A} (m : M A) :
  keeps same_shape m → keeps shape_or_empty m.
Proof. intros H w. destruct (H w) as [Hs Ht]. split; [done | by right]. Qed.

Lemma stop_shape_or_empty : keeps shape_or_empty stop.
Proof.
  unfold stop.
  apply keeps_bind; [apply _ | apply keeps_shape_or_empty, logger_info_same_shape
                    | intros _].
  apply keeps_bind; [apply _ | apply keeps_shape_or_empty, set_config_same_shape
                    | intros _].
  apply keeps_bind; [apply _ | | intros _].
  - intros w. split; [done | by left].
  - apply keeps_shape_or_empty, logger_info_same_shape.
Qed.

Lemma start_same_shape : keeps same_shape start.
Proof.
  unfold start.
  apply keeps_bind; [apply _ | apply logger_info_same_shape | intros _].
  intros w. by apply same_shape_nodes.
Qed.

Lemma signal_network_ready_same_shape r :
  keeps same_shape (signal_network_ready asctime write_points_ok r).
Proof.
  unfold signal_network_ready.
  apply keeps_bind; [apply _ | |intros me].
  { intros w. simpl. reflexivity. }
  case_decide; [apply keeps_ret, _|].
  apply keeps_bind; [apply _ | | intros _].
  { intros w. rewrite ozw_debug_eval. by apply same_shape_nodes. }
  apply keeps_bind; [apply _ | apply logger_info_same_shape | intros _].
  apply keeps_bind; [apply _ | apply set_config_same_shape | intros _].
  apply start_polling_same_shape.
Qed.

Lemma handle_same_shape i w :
  i ≠ Sigint →
  same_shape w (handle asctime write_points_ok i w).2.
Proof.
  intros Hi. destruct i as [| |r|]; [|done| |].
  - apply start_same_shape.
  - apply signal_network_ready_same_shape.
  - unfold handle. destruct (timers w); [reflexivity|].
    etrans; [|apply start_polling_same_shape]. by apply same_shape_nodes.
Qed.

Lemma handle_shape_or_empty i w :
  shape_or_empty w (handle asctime write_points_ok i w).2.
Proof.
  destruct (decide (i = Sigint)) as [->|Hi].
  - apply stop_shape_or_empty.
  - destruct (handle_same_shape i w Hi) as [Hs Ht]. split; [done | by right].
Qed.

Lemma run_shape_or_empty inputs w :
  shape_or_empty w (run asctime write_points_ok inputs w).
Proof.
  revert w. induction inputs as [|i inputs IH]; intros w; simpl; [reflexivity|].
  etrans; [apply handle_shape_or_empty | apply IH].
Qed.

Lemma run_same_shape inputs w :
  Sigint ∉ inputs →
  same_shape w (run asctime write_points_ok inputs w).
Proof.
  revert w. induction inputs as [|i inputs IH]; intros w Hin; simpl; [reflexivity|].
  apply not_elem_of_cons in Hin as [Hi Hin].
  etrans; [apply handle_same_shape; by apply not_eq_sym | by apply IH].
Qed.

Lemma same_table_node ns ns' k n' :
  same_table ns ns' →
  dict_get ns' k = Some n' →
  ∃ n, dict_get ns k = Some n
       ∧ node_identity n' = node_identity n
       ∧ is_sensor n' = is_sensor n
       ∧ keys (values n') = keys (values n).
Proof.
  intros Ht Hn'. pose proof (same_table_lookup _ _ k Ht) as Hk.
  rewrite Hn' in Hk. destruct (dict_get ns k) as [n|]; [|done].
  destruct Hk as (_ & Hi & Hv). simpl in *. exists n.
  split_and!; [done | done | by apply is_sensor_identity |].
  by rewrite (same_values_keys _ _ _ Hv).
Qed.

Lemma same_table_lookup_value net net' node_key val_key :
  same_table (nodes net) (nodes net') →
  node_key ≠ 3 ∨ val_key ≠ CONFIG_NUMBER →
  lookup_value net' node_key val_key = lookup_value net node_key val_key.
Proof.
  intros Ht Hne. unfold lookup_value.
  pose proof (same_table_lookup _ _ node_key Ht) as Hk.
  destruct (dict_get (nodes net) node_key) as [n|],
    (dict_get (nodes net') node_key) as [n'|]; try done.
  simpl. destruct Hk as (_ & _ & Hv). simpl in Hv.
  pose proof (same_values_lookup _ _ _ val_key Hv) as Hj.
  destruct (dict_get (values n) val_key) as [v|],
    (dict_get (values n') val_key) as [v'|]; try done.
  destruct Hj as [-> | (H3 & Hc & _)]; [done|]. tauto.
Qed.

(** X3: the program adds no node and no value and changes nothing that
    identifies a node. After any run the publisher holds the same network
    object, and the node table is either empty (stop() went through
    [network.stop()]) or has the keys it had; without a SIGINT it has the
    keys it had. Every node found after the run was there before under the
    same key, with the same class, sensor list, ids, value keys and sensor
    classification. *)
Theorem run_keeps_nodes_and_keys inputs w :
  let w' := run asctime write_points_ok inputs w in
  self_network w' = self_network w
  ∧ (nodes (network w') = []
     ∨ keys (nodes (network w')) = keys (nodes (network w)))
  ∧ (Sigint ∉ inputs → keys (nodes (network w')) = keys (nodes (network w)))
  ∧ ∀ k n', dict_get (nodes (network w')) k = Some n' →
      ∃ n, dict_get (nodes (network w)) k = Some n
           ∧ node_identity n' = node_identity n
           ∧ is_sensor n' = is_sensor n
           ∧ keys (values n') = keys (values n).
Proof.
  intros w'. destruct (run_shape_or_empty inputs w) as [Hs Ht]. fold w' in Hs, Ht.
  split_and!.
  - done.
  - destruct Ht as [Ht|Ht]; [by left | right; by rewrite (same_table_keys _ _ Ht)].
  - intros Hin. destruct (run_same_shape inputs w Hin) as [_ Ht'].
    fold w' in Ht'. by rewrite (same_table_keys _ _ Ht').
  - intros k n' Hn'. destruct Ht as [Ht|Ht].
    + rewrite Ht in Hn'. done.
    + by apply (same_table_node _ _ _ _ Ht).
Qed.

(** X4: the program never alters a value other than node 3's CONFIG_NUMBER
    value. For every other pair of keys, the value found after any run of
    callbacks is the value that was found before; after a run without
    SIGINT the lookup gives exactly what it gave before, and after a stop()
    that went through [network.stop()] the table is empty. *)
Theorem run_changes_only_the_config_value inputs w node_key val_key :
  node_key ≠ 3 ∨ val_key ≠ CONFIG_NUMBER →
  let w' := run asctime write_points_ok inputs w in
  (nodes (network w') = []
   ∨ lookup_value (network w') node_key val_key
     = lookup_value (network w) node_key val_key)
  ∧ (Sigint ∉ inputs →
     lookup_value (network w') node_key val_key
     = lookup_value (network w) node_key val_key)
  ∧ ∀ v, lookup_value (network w') node_key val_key = Some v →
         lookup_value (network w) node_key val_key = Some v.
Proof.
  intros Hne w'. destruct (run_shape_or_empty inputs w) as [_ Ht]. fold w' in Ht.
  split_and!.
  - destruct Ht as [Ht|Ht]; [by left|]. right.
    by apply same_table_lookup_value.
  - intros Hin. destruct (run_same_shape inputs w Hin) as [_ Ht'].
    by apply same_table_lookup_value.
  - intros v Hv. destruct Ht as [Ht|Ht].
    + unfold lookup_value in Hv. rewrite Ht in Hv. done.
    + by rewrite <- (same_table_lookup_value _ _ _ _ Ht Hne).
Qed.

End RunInvariants.

Lemma run_changes_only_the_config_value_witness :
  lookup_value
    (network (run sample_clock first_write_raises
                [NetworkReady 0%nat; TimerFires; CallStart] sample_world))
    3 72057594093256786
  = Some humidity
  ∧ (nodes (network (run sample_clock first_write_raises
                       [NetworkReady 0%nat; Sigint; TimerFires] sample_world)) = []
     ∨ lookup_value
         (network (run sample_clock first_write_raises
                     [NetworkReady 0%nat; Sigint; TimerFires] sample_world))
         3 72057594093256786
       = Some humidity).
Proof.
  destruct (run_changes_only_the_config_value sample_clock first_write_raises
              [NetworkReady 0%nat; TimerFires; CallStart] sample_world
              3 72057594093256786) as (_ & H1 & _); [right; discriminate|].
  destruct (run_changes_only_the_config_value sample_clock first_write_raises
              [NetworkReady 0%nat; Sigint; TimerFires] sample_world
              3 72057594093256786) as (H2 & _ & _); [right; discriminate|].
  split; [|exact H2].
  rewrite H1; [reflexivity|]. by apply (bool_decide_unpack _).
Defined.

(** ** The poll rate, the timers and the callbacks of a run *)

Section RunCallbacks.

Variable asctime : nat -> string.
Variable write_points_ok : nat -> bool.

Lemma signal_network_ready_config w val :
  config_value (network w) = Some val →
  config_value (network (signal_network_ready asctime write_points_ok
                           (self_network w) w).2)
  = Some (with_data val (NInt 15)).
Proof.
  intros H.
  destruct (set_config_returns_full (NInt 15)
              (append (ready_logs (network w)) w) val H) as (node & Hn & Hv & Hs).
  rewrite signal_network_ready_own, (bind_Ok _ _ _ _ _ Hs).
  rewrite start_polling_same_network. cbn [emit set_network network].
  by apply config_value_with_data.
Qed.

Lemma handle_config i w val :
  i ≠ Sigint →
  config_value (network w) = Some val →
  ∃ x, config_value (network (handle asctime write_points_ok i w).2)
       = Some (with_data val x).
Proof.
  intros Hi H. destruct i as [| |r|]; [|done| |].
  - exists (data val). rewrite with_data_id. exact H.
  - destruct (decide (r = self_network w)) as [->|Hr].
    + exists (NInt 15). by apply signal_network_ready_config.
    + exists (data val). unfold handle.
      rewrite signal_network_ready_other by done. by rewrite with_data_id.
  - exists (data val). rewrite with_data_id. unfold handle.
    destruct (timers w); [done|]. by rewrite start_polling_same_network.
Qed.

Lemma handle_self_network i w :
  self_network (handle asctime write_points_ok i w).2 = self_network w.
Proof. by destruct (handle_shape_or_empty asctime write_points_ok i w). Qed.

Lemma handle_timers i w :
  timers (handle asctime write_points_ok i w).2
  = (timers w
     + match config_value (network w) with
       | Some _ => if decide (i = NetworkReady (self_network w)) then 1 else 0
       | None => 0
       end)%nat.
Proof.
  assert (H0 : ∀ n : nat, n = (n + match config_value (network w) with
                             | Some _ => 0 | None => 0 end)%nat).
  { intros n. destruct (config_value (network w)); lia. }
  destruct i as [| |r|].
  - rewrite decide_False by done. apply H0.
  - rewrite decide_False by done. unfold handle, stop_signal.
    rewrite stop_keeps_timers. apply H0.
  - unfold handle. destruct (decide (r = self_network w)) as [->|Hr].
    + rewrite decide_True by done.
      destruct (config_value (network w)) as [val|] eqn:Hc.
      * destruct (signal_network_ready_returns asctime write_points_ok w val Hc)
          as (_ & _ & _ & ->). lia.
      * destruct (signal_network_ready_raises asctime write_points_ok w Hc)
          as (key & _ & -> & _). simpl. lia.
    + rewrite signal_network_ready_other by done.
      rewrite decide_False by congruence. apply H0.
  - rewrite decide_False by done.
    destruct (timers w) as [|n] eqn:Hn.
    + unfold handle. rewrite Hn. simpl. rewrite Hn. apply H0.
    + destruct (timer_fires_rearms asctime write_points_ok w) as [-> _]; [lia|].
      rewrite Hn. apply H0.
Qed.

Lemma handle_timers_bounds i w :
  (timers w ≤ timers (handle asctime write_points_ok i w).2
   ≤ timers w + (if decide (i = NetworkReady (self_network w)) then 1 else 0))%nat.
Proof.
  rewrite handle_timers. destruct (config_value (network w)); case_decide; lia.
Qed.

(** X5: no callback ever removes a pending timer, and only a ready
    notification for the publisher's own network adds one: over any run the
    number of pending timers does not shrink, whatever stop() calls occur,
    and grows by at most the number of such notifications. In a run without
    SIGINT that starts with node 3 holding its CONFIG_NUMBER value it grows
    by exactly that number, so a repeated ready notification starts a
    further chain of cycles. *)
Theorem pending_timers_count inputs w :
  (timers w ≤ timers (run asctime write_points_ok inputs w)
   ≤ timers w
     + length (filter (fun i => i = NetworkReady (self_network w)) inputs))%nat
  ∧ (is_Some (config_value (network w)) → Sigint ∉ inputs →
     timers (run asctime write_points_ok inputs w)
     = (timers w
        + length (filter (fun i => i = NetworkReady (self_network w)) inputs))%nat).
Proof.
  split.
  - revert w. induction inputs as [|i inputs IH]; intros w; [simpl; lia|].
    cbn [run]. specialize (IH (handle asctime write_points_ok i w).2).
    rewrite handle_self_network in IH.
    pose proof (handle_timers_bounds i w) as Hb.
    rewrite filter_cons. case_decide; rewrite ?decide_True in Hb by done;
      rewrite ?decide_False in Hb by done; simpl; lia.
  - revert w. induction inputs as [|i inputs IH]; intros w [val Hc] Hin; [simpl; lia|].
    apply not_elem_of_cons in Hin as [Hi Hin]. apply not_eq_sym in Hi.
    cbn [run]. destruct (handle_config i w val Hi Hc) as [x Hx].
    rewrite IH by (eauto || done). rewrite handle_self_network, handle_timers, Hc.
    rewrite filter_cons. case_decide; simpl; lia.
Qed.

Lemma handle_idle i w :
  timers w = 0%nat →
  i ≠ NetworkReady (self_network w) →
  grows idle_event w (handle asctime write_points_ok i w).2.
Proof.
  intros Ht Hi. destruct i as [| |r|].
  - by apply (start_grows idle_event).
  - by apply (stop_grows idle_event).
  - unfold handle. rewrite signal_network_ready_other by congruence. reflexivity.
  - unfold handle. rewrite Ht. reflexivity.
Qed.

Lemma handle_idle_timers i w :
  timers w = 0%nat →
  i ≠ NetworkReady (self_network w) →
  timers (handle asctime write_points_ok i w).2 = 0%nat.
Proof.
  intros Ht Hi. rewrite handle_timers, Ht.
  destruct (config_value (network w)); [|done]. by rewrite decide_False.
Qed.

(** X6: cycling starts with the ready notification only. As long as no
    timer is pending and no ready notification for the publisher's own
    network arrives, whatever start(), stop(), foreign notifications and
    timer expiries occur, nothing is written to the client, no timer is
    armed and the poll rate is never raised: the run only logs, starts and
    stops the network and writes the rate 3600. *)
Theorem no_cycle_before_ready inputs w :
  timers w = 0%nat →
  NetworkReady (self_network w) ∉ inputs →
  Forall idle_event
    (drop (length (trace w)) (trace (run asctime write_points_ok inputs w)))
  ∧ timers (run asctime write_points_ok inputs w) = 0%nat.
Proof.
  intros Ht Hin.
  cut (grows idle_event w (run asctime write_points_ok inputs w)
       ∧ timers (run asctime write_points_ok inputs w) = 0%nat).
  { intros [(evs & -> & HF) H0]. by rewrite drop_app_length. }
  revert w Ht Hin. induction inputs as [|i inputs IH]; intros w Ht Hin.
  - split; [reflexivity | done].
  - apply not_elem_of_cons in Hin as [Hi Hin]. cbn [run].
    destruct (IH (handle asctime write_points_ok i w).2) as [Hg H0].
    + by apply handle_idle_timers.
    + by rewrite handle_self_network.
    + split; [|done]. etrans; [by apply handle_idle | done].
Qed.

(** X7: a ready notification for a foreign network can be dropped from any
    sequence of callbacks, wherever it stands: the run ends in the same
    world. *)
Theorem foreign_notifications_can_be_dropped inputs w :
  run asctime write_points_ok inputs w
  = run asctime write_points_ok
      (filter (fun i => is_foreign_ready (self_network w) i = false) inputs) w.
Proof.
  revert w. induction inputs as [|i inputs IH]; intros w; [done|].
  rewrite filter_cons. case_decide as Hf.
  - cbn [run]. rewrite IH, handle_self_network. done.
  - cbn [run]. destruct i as [| |r|]; try done.
    simpl in Hf. apply not_false_is_true, bool_decide_eq_true in Hf.
    unfold handle. rewrite signal_network_ready_other by done. apply IH.
Qed.

End RunCallbacks.

Lemma pending_timers_count_witness :
  timers (run sample_clock always_ok
            [NetworkReady 0%nat; TimerFires; NetworkReady 0%nat; CallStart]
            sample_world)
  = 2%nat.
Proof.
  destruct (pending_timers_count sample_clock always_ok
              [NetworkReady 0%nat; TimerFires; NetworkReady 0%nat; CallStart]
              sample_world) as [_ H].
  rewrite H; [reflexivity | | ].
  - exists group1_interval. exact sample_config.
  - by apply (bool_decide_unpack _).
Defined.

Lemma no_cycle_before_ready_witness :
  Forall idle_event
    (drop (length (trace sample_world))
       (trace (run sample_clock always_ok
                 [CallStart; NetworkReady 5%nat; TimerFires; Sigint] sample_world)))
  ∧ timers (run sample_clock always_ok
              [CallStart; NetworkReady 5%nat; TimerFires; Sigint] sample_world)
    = 0%nat.
Proof.
  apply (no_cycle_before_ready sample_clock always_ok
           [CallStart; NetworkReady 5%nat; TimerFires; Sigint] sample_world).
  - reflexivity.
  - by apply (bool_decide_unpack _).
Defined.

(** ** How often the network is stopped, and what a callback can raise *)

Lemma filter_none {A} (f : A -> bool) (l : list A) :
  Forall (fun x => f x = false) l → filter (fun x => f x = true) l = [].
Proof.
  induction 1 as [|x l Hx _ IH]; [done|].
  rewrite filter_cons, decide_False by congruence. exact IH.
Qed.

Lemma grows_none (f : Event -> bool) w w' :
  grows (fun e => f e = false) w w' →
  ∃ evs, trace w' = trace w ++ evs
         ∧ length (filter (fun e => f e = true) evs) = 0%nat.
Proof.
  intros (evs & He & HF). exists evs. split; [done|]. by rewrite filter_none.
Qed.

Lemma published_not_stop e : published_event e → is_network_stop e = false.
Proof. by destruct e. Qed.

Section Stops.

Variable asctime : nat -> string.
Variable write_points_ok : nat -> bool.

Lemma handle_stop_count i w :
  ∃ evs,
    trace (handle asctime write_points_ok i w).2 = trace w ++ evs
    ∧ length (filter (fun e => is_network_stop e = true) evs)
      = match config_value (network w) with
        | Some _ => if decide (i = Sigint) then 1%nat else 0%nat
        | None => 0%nat
        end.
Proof.
  assert (H0 : match config_value (network w) with
               | Some _ => 0%nat | None => 0%nat end = 0%nat)
    by (by destruct (config_value (network w))).
  destruct i as [| |r|].
  - rewrite decide_False, H0 by done. apply grows_none.
    by apply (start_grows (fun e => is_network_stop e = false)).
  - rewrite decide_True by done. unfold handle, stop_signal.
    destruct (config_value (network w)) as [val|] eqn:Hc.
    + destruct (stop_returns w val Hc) as (_ & _ & _ & Hev & _).
      destruct (stop_grows (fun _ => True)) with (w := w) as (evs & He & _); try done.
      exists evs. split; [done|].
      rewrite (new_events_app _ _ _ He) in Hev. by rewrite Hev.
    + destruct (stop_raises w Hc) as (key & _ & ->).
      exists [EvLog "Stopping network..." []]. done.
  - rewrite decide_False, H0 by done. apply grows_none.
    apply (signal_network_ready_grows asctime write_points_ok
             (fun e => is_network_stop e = false)); try done.
    apply published_not_stop.
  - rewrite decide_False, H0 by done. apply grows_none.
    unfold handle. destruct (timers w); [reflexivity|].
    etrans; [apply (grows_same_trace _ w (fire_timer w)); done|].
    apply start_polling_grows; [done | apply published_not_stop].
Qed.

Lemma handle_stop_count_le i w :
  ∃ evs,
    trace (handle asctime write_points_ok i w).2 = trace w ++ evs
    ∧ (length (filter (fun e => is_network_stop e = true) evs)
       ≤ if decide (i = Sigint) then 1 else 0)%nat.
Proof.
  destruct (handle_stop_count i w) as (evs & He & Hc). exists evs.
  split; [done|]. rewrite Hc.
  destruct (config_value (network w)); case_decide; lia.
Qed.

Lemma stop_on_empty_table w :
  nodes (network w) = [] →
  stop w = (Raise (KeyError 3), emit (EvLog "Stopping network..." []) w).
Proof.
  intros Hn. rewrite stop_unfold. unfold bind.
  rewrite set_value_data_eval. cbn [emit network]. by rewrite Hn.
Qed.

(** X8: [network.stop()] is called by stop() only, at most once for every
    SIGINT of a run. stop() is not guarded against running twice, but when
    it has returned on a started network the node table is empty: a second
    stop() right after it raises KeyError for node 3 before
    [network.stop()], so two SIGINTs in a row stop the network once. *)
Theorem network_stop_is_called_by_stop_only inputs w :
  (length (filter (fun e => is_network_stop e = true)
             (drop (length (trace w))
                (trace (run asctime write_points_ok inputs w))))
   ≤ length (filter (fun i => i = Sigint) inputs))%nat
  ∧ (is_started (network w) = true →
     is_Some (config_value (network w)) →
     (stop w).1 = Ok tt
     ∧ nodes (network (stop w).2) = []
     ∧ (stop (stop w).2).1 = Raise (KeyError 3)
     ∧ filter (fun e => is_network_stop e = true)
         (drop (length (trace w))
            (trace (run asctime write_points_ok [Sigint; Sigint] w)))
       = [EvNetworkStop]).
Proof.
  split.
  - cut (∃ evs, trace (run asctime write_points_ok inputs w) = trace w ++ evs
                ∧ (length (filter (fun e => is_network_stop e = true) evs)
                   ≤ length (filter (fun i => i = Sigint) inputs))%nat).
    { intros (evs & -> & H). by rewrite drop_app_length. }
    revert w. induction inputs as [|i inputs IH]; intros w.
    + exists []. simpl. rewrite app_nil_r. split; [done | lia].
    + cbn [run].
      destruct (handle_stop_count_le i w) as (evs1 & He1 & Hc1).
      destruct (IH (handle asctime write_points_ok i w).2) as (evs2 & He2 & Hc2).
      exists (evs1 ++ evs2). split; [by rewrite He2, He1, app_assoc|].
      rewrite filter_app, length_app, filter_cons.
      case_decide; rewrite ?decide_True in Hc1 by done;
        rewrite ?decide_False in Hc1 by done; simpl; lia.
  - intros _ [val Hc].
    destruct (stop_returns w val Hc) as (Hok & _ & _ & Hev & Hn).
    pose proof (stop_on_empty_table (stop w).2 Hn) as Hs2.
    split_and!; [done | done | exact (f_equal fst Hs2) |].
    change (run asctime write_points_ok [Sigint; Sigint] w)
      with (stop (stop w).2).2.
    rewrite Hs2. cbn [snd emit trace].
    destruct (stop_grows (fun _ => True)) with (w := w) as (evs & He & _); try done.
    rewrite (new_events_app _ _ _ He) in Hev. rewrite He, Hev.
    rewrite <- app_assoc, drop_app_length. reflexivity.
Qed.

Lemma start_polling_raises_client_error w e :
  network_wf (network w) →
  (start_polling asctime write_points_ok w).1 = Raise e →
  e = InfluxDBClientError.
Proof.
  intros Hwf. rewrite start_polling_spec by done. simpl. intros He.
  destruct (publish_result_cases write_points_ok
              (whitelisted_readings (nodes (network w))) (write_calls w)); congruence.
Qed.

(** X12: what a callback can raise over a well-formed network. start()
    never raises. KeyError is raised only by stop() and by the ready
    callback for the own network, only for the key 3 or CONFIG_NUMBER, and
    only when node 3 or its CONFIG_NUMBER value is absent. The exception of
    the client is raised only by a cycle: at a timer expiry, or in the ready
    callback once the poll rate was written. *)
Theorem callback_exceptions i w e :
  network_wf (network w) →
  (handle asctime write_points_ok i w).1 = Raise e →
  (e = InfluxDBClientError
   ∧ (i = TimerFires
      ∨ (i = NetworkReady (self_network w)
         ∧ is_Some (config_value (network w)))))
  ∨ (∃ key, e = KeyError key
            ∧ (key = 3 ∨ key = CONFIG_NUMBER)
            ∧ config_value (network w) = None
            ∧ (i = Sigint ∨ i = NetworkReady (self_network w))).
Proof.
  intros Hwf He. destruct i as [| |r|].
  - discriminate He.
  - unfold handle, stop_signal in He.
    destruct (config_value (network w)) as [val|] eqn:Hc.
    + destruct (stop_returns w val Hc) as (Hok & _). congruence.
    + destruct (stop_raises w Hc) as (key & Hk & Hs). rewrite Hs in He.
      injection He as <-. right. exists key. split_and!; [done|done|done|by left].
  - unfold handle in He. destruct (decide (r = self_network w)) as [->|Hr].
    + destruct (config_value (network w)) as [val|] eqn:Hc.
      * left. split; [|right; split; [done | by exists val]].
        destruct (set_config_returns_full (NInt 15)
                    (append (ready_logs (network w)) w) val Hc)
          as (node & Hn & Hv & Hs).
        rewrite signal_network_ready_own, (bind_Ok _ _ _ _ _ Hs) in He.
        apply start_polling_raises_client_error in He; [done|].
        cbn [emit set_network network].
        apply (same_table_wf (nodes (network w))); [|exact Hwf].
        by apply same_table_with_data.
      * destruct (signal_network_ready_raises asctime write_points_ok w Hc)
          as (key & Hk & Hs & _).
        rewrite Hs in He. injection He as <-.
        right. exists key. split_and!; [done|done|done|by right].
    + rewrite signal_network_ready_other in He by done. discriminate He.
  - left. split; [|by left]. unfold handle in He.
    destruct (timers w); [discriminate He|].
    by apply start_polling_raises_client_error in He.
Qed.

End Stops.

Lemma network_stop_is_called_by_stop_only_witness :
  (stop sample_world).1 = Ok tt
  ∧ (stop (stop sample_world).2).1 = Raise (KeyError 3)
  ∧ filter (fun e => is_network_stop e = true)
      (drop (length (trace sample_world))
         (trace (run sample_clock always_ok [Sigint; Sigint] sample_world)))
    = [EvNetworkStop].
Proof.
  destruct (network_stop_is_called_by_stop_only sample_clock always_ok [] sample_world)
    as [_ H].
  destruct (H eq_refl (ex_intro _ group1_interval sample_config))
    as (H1 & _ & H2 & H3).
  split; [exact H1|]. split; [exact H2 | exact H3].
Defined.

Lemma callback_exceptions_witness :
  (handle sample_clock first_write_raises TimerFires (arm sample_world)).1
    = Raise InfluxDBClientError
  ∧ (handle sample_clock always_ok Sigint fresh_world).1 = Raise (KeyError 3).
Proof.
  assert (H1 : (handle sample_clock first_write_raises TimerFires
                  (arm sample_world)).1 = Raise InfluxDBClientError)
    by (vm_compute; reflexivity).
  assert (H2 : (handle sample_clock always_ok Sigint fresh_world).1
               = Raise (KeyError 3))
    by reflexivity.
  split; [|exact H2].
  destruct (callback_exceptions sample_clock first_write_raises TimerFires
              (arm sample_world) InfluxDBClientError sample_world_wf H1)
    as [[_ _] | (key & Hk & _)]; [exact H1 | discriminate Hk].
Defined.
